(** * EDF reader and converter: a shallow embedding of [edf_converter.py]

    The Python module wraps an [mne.io.Raw] object in a class
    [EDFConverter] and exports its samples to CSV, JSON and NumPy
    archives.  The embedding keeps the source's names.  Python exceptions
    are values of a [result] type, the object and the outside world (files
    written, lines printed) are threaded through a small state-and-error
    monad, and samples are exact rationals standing for Python floats. *)

From stdpp Require Import base list strings pretty gmap.
From Stdlib Require Import Ascii QArith ZArith Lia.

Close Scope Q_scope.
#[local] Set Warnings "-register-all".
Open Scope string_scope.
Open Scope list_scope.

(** ** Exceptions and results *)

(** The exception classes that the module and the library calls it makes
    can raise. *)
Inductive exc_class :=
  | FileNotFoundError
  | ValueError
  | IndexError
  | RuntimeError
  | NotImplementedError
  | PermissionError
  | OSError.

#[global] Instance exc_class_eq_dec : EqDecision exc_class.
Proof. solve_decision. Defined.

(** An exception instance: its class and [str(e)]. *)
Record exn := Exn { exc_type : exc_class; exc_msg : string }.

Inductive result (A : Type) :=
  | Ok (a : A)
  | Raise (e : exn).
Arguments Ok {A} a.
Arguments Raise {A} e.

#[global] Instance result_ret : MRet result := @Ok.
#[global] Instance result_bind : MBind result := λ A B f r,
  match r with Ok a => f a | Raise e => Raise e end.

(** [o] or, when it is [None], the exception [e]. *)
Definition or_raise {A} (o : option A) (e : exn) : result A :=
  match o with Some a => Ok a | None => Raise e end.

(** ** Python text helpers *)

(** [c in s] for a character. *)
Fixpoint contains_char (c : ascii) (s : string) : bool :=
  match s with
  | EmptyString => false
  | String c' rest => Ascii.eqb c' c || contains_char c rest
  end.

(** Text is held as its bytes.  [ascii_text] says that every character is
    in ASCII, [plain_text] that, besides, none is a control character, an
    apostrophe or a backslash. *)
Definition ascii_char (c : ascii) : bool := (nat_of_ascii c <? 128)%nat.

Definition plain_char (c : ascii) : bool :=
  (32 <=? nat_of_ascii c)%nat && (nat_of_ascii c <? 127)%nat
  && negb (Ascii.eqb c "'"%char) && negb (Ascii.eqb c "092"%char).

Fixpoint ascii_text (s : string) : bool :=
  match s with
  | EmptyString => true
  | String c rest => ascii_char c && ascii_text rest
  end.

Fixpoint plain_text (s : string) : bool :=
  match s with
  | EmptyString => true
  | String c rest => plain_char c && plain_text rest
  end.

Definition hex_digit (n : nat) : ascii :=
  ascii_of_nat (if (n <? 10)%nat then 48 + n else 87 + n).

(** One character inside [repr] of a [str] delimited by [quote]: the
    delimiter and the backslash get a backslash, tab, line feed and
    carriage return their letter, other control characters [\xNN]. *)
Definition py_repr_char (quote c : ascii) : string :=
  let n := nat_of_ascii c in
  if Ascii.eqb c quote || Ascii.eqb c "092"%char then
    String "092"%char (String c EmptyString)
  else if (n =? 9)%nat then String "092"%char "t"
  else if (n =? 10)%nat then String "092"%char "n"
  else if (n =? 13)%nat then String "092"%char "r"
  else if (n <? 32)%nat || (n =? 127)%nat then
    String "092"%char
      (String "x"%char
         (String (hex_digit (n / 16))
            (String (hex_digit (n mod 16)) EmptyString)))
  else String c EmptyString.

Fixpoint py_repr_body (quote : ascii) (s : string) : string :=
  match s with
  | EmptyString => EmptyString
  | String c rest => py_repr_char quote c +:+ py_repr_body quote rest
  end.

(** [repr] of a [str] of ASCII text: in apostrophes, or in double quotes
    when the text has an apostrophe and no double quote; and [repr] of a
    list of strings, as an f-string renders it. *)
Definition py_repr_str (s : string) : string :=
  let quote :=
    if contains_char "'"%char s && negb (contains_char "034"%char s)
    then "034"%char else "'"%char in
  String quote (py_repr_body quote s +:+ String quote EmptyString).

Definition py_repr_list (l : list string) : string :=
  "[" +:+ String.concat ", " (py_repr_str <$> l) +:+ "]".

(** [needle in haystack] on strings. *)
Fixpoint mentions (haystack needle : string) : bool :=
  String.prefix needle haystack ||
  match haystack with
  | EmptyString => false
  | String _ rest => mentions rest needle
  end.

(** [s.endswith(suffix)]. *)
Definition endswith (s suffix : string) : bool :=
  let n := String.length s in
  let k := String.length suffix in
  (k <=? n)%nat && String.eqb (String.substring (n - k) k s) suffix.

(** [s.split('/')]. *)
Fixpoint split_slash (s : string) : list string :=
  match s with
  | EmptyString => [EmptyString]
  | String c rest =>
      if Ascii.eqb c "/"%char then EmptyString :: split_slash rest
      else match split_slash rest with
           | first :: others => String c first :: others
           | [] => [String c EmptyString]
           end
  end.

(** The components of a POSIX path as [pathlib] keeps them: empty
    components and single dots are dropped. *)
Definition posix_parts (p : string) : list string :=
  filter (λ part, part ≠ EmptyString ∧ part ≠ ".") (split_slash p).

(** [Path(p).name]: the last component, or the empty string. *)
Definition posix_name (p : string) : string := default "" (last (posix_parts p)).

(** ** The part of mne this module uses *)

(** A preloaded [mne.io.Raw]: the channel names, the single sampling
    frequency [info['sfreq']], the sample matrix [_data] of shape
    [(n_channels, n_times)] and [info['meas_date']] (its [str], when
    set). *)
Record Raw := {
  ch_names : list string;
  sfreq : Q;
  n_times : nat;
  _data : list (list Q);
  meas_date : option string;
}.

(** What mne guarantees of a loaded recording: at least one channel,
    unique channel names, one row of [n_times] samples per channel. *)
Definition raw_ok (raw : Raw) : bool :=
  bool_decide (ch_names raw ≠ [])
  && bool_decide (NoDup (ch_names raw))
  && bool_decide (length (_data raw) = length (ch_names raw))
  && forallb (λ row, length row =? n_times raw)%nat (_data raw).

(** [raw.times]: [np.arange(n_times) / sfreq]. *)
Definition times (raw : Raw) : list Q :=
  (λ i : nat, inject_Z (Z.of_nat i) / sfreq raw)%Q <$> seq 0 (n_times raw).

(** [ch_names.index(name)]. *)
Definition index_of (names : list string) (name : string) : option nat :=
  fst <$> list_find (λ n, n = name) names.

(** [mne.pick_channels(ch_names, include)], [exclude] left at its default
    [[]].  [ordered] is the keyword the module never passes, so the
    library's default applies: [False] up to mne 1.6, where [include] is
    used as a set and the indices come back in the order of [ch_names],
    names that are absent being skipped; [True] from mne 1.7, where the
    indices follow [include] and an absent name raises. *)
Definition pick_channels (ordered : bool) (ch_names include : list string)
  : result (list nat) :=
  if negb (bool_decide (NoDup ch_names)) then
    Raise (Exn RuntimeError "ch_names is not a unique list, picking is unsafe")
  else
    let include := match include with [] => ch_names | _ => include end in
    if ordered then
      let missing := filter (λ name, name ∉ ch_names) include in
      match missing with
      | [] => Ok (omap (index_of ch_names) include)
      | _ => Raise (Exn ValueError
               ("Missing channels from ch_names required by include:"
                +:+ String "010"%char (py_repr_list missing)))
      end
    else
      Ok (fst <$> filter (λ p, p.2 ∈ include) (imap (λ k name, (k, name)) ch_names)).

(** [raw.get_data(picks=picks)] on integer picks ([None]: all channels):
    the picked rows of [_data], in the order of [picks]. *)
Definition raw_get_data (raw : Raw) (picks : option (list nat))
  : result (list (list Q)) :=
  let picks := default (seq 0 (length (ch_names raw))) picks in
  match picks with
  | [] => Raise (Exn ValueError "No appropriate channels found for the given picks")
  | _ => or_raise (mapM (λ k, _data raw !! k) picks)
           (Exn IndexError "picks out of range")
  end.

(** [data[:, i]] and [data[i, :]] on a two-dimensional array. *)
Definition column (data : list (list Q)) (i : nat) : result (list Q) :=
  or_raise (mapM (λ row : list Q, row !! i) data)
    (Exn IndexError
       ("index " +:+ pretty i +:+ " is out of bounds for axis 1 with size "
        +:+ pretty (default 0%nat (length <$> head data)))).

Definition row (data : list (list Q)) (i : nat) : result (list Q) :=
  or_raise (data !! i)
    (Exn IndexError
       ("index " +:+ pretty i +:+ " is out of bounds for axis 0 with size "
        +:+ pretty (length data))).

(** ** The class [EDFConverter] *)

Record EDFConverter := {
  filepath : string;
  raw : Raw;
}.

(** The dictionary [get_info] returns, key by key. *)
Record Info := {
  filename : string;
  n_channels : nat;
  channel_names : list string;
  sampling_rate : Q;
  duration_seconds : Q;
  n_samples : nat;
  measurement_date : option string;
}.

(** Python's truth value of an [Optional[List[str]]]: [None] and [[]] are
    false. *)
Definition truthy (channels : option (list string)) : bool :=
  match channels with
  | None | Some [] => false
  | Some (_ :: _) => true
  end.

Section Converter.

(** The default of [ordered] in the installed [mne.pick_channels]. *)
Variable ordered_default : bool.

Section Loading.
(** [Path.exists] and [mne.io.read_raw_edf(path, preload=True)], the
    file system and the decoder the constructor relies on. *)
Variable path_exists : string → bool.
Variable read_raw_edf : string → result Raw.

Definition __init__ (path : string) : result EDFConverter :=
  if negb (path_exists path) then
    Raise (Exn FileNotFoundError ("EDF file not found: " +:+ path))
  else
    match read_raw_edf path with
    | Ok r => Ok {| filepath := path; raw := r |}
    | Raise e =>
        Raise (Exn ValueError ("Failed to read EDF file: " +:+ exc_msg e))
    end.
End Loading.

Definition get_info (self : EDFConverter) : result Info :=
  last_time ← or_raise (last (times (raw self)))
    (Exn IndexError "index -1 is out of bounds for axis 0 with size 0");
  mret {| filename := posix_name (filepath self);
          n_channels := length (ch_names (raw self));
          channel_names := ch_names (raw self);
          sampling_rate := sfreq (raw self);
          duration_seconds := last_time;
          n_samples := length (times (raw self));
          measurement_date := meas_date (raw self) |}.

Definition get_data (self : EDFConverter) (channels : option (list string))
  : result (list (list Q) * list Q) :=
  data ←
    (if truthy channels then
       picks ← pick_channels ordered_default (ch_names (raw self))
                 (default [] channels);
       raw_get_data (raw self) (Some picks)
     else raw_get_data (raw self) None);
  mret (data, times (raw self)).

(** The labels an exporter writes: [channels] if it is truthy, else
    [raw.ch_names]. *)
Definition export_names (self : EDFConverter) (channels : option (list string))
  : list string :=
  if truthy channels then default [] channels else ch_names (raw self).

Definition get_channel_data (self : EDFConverter) (channel_name : string)
  : result (list Q * list Q) :=
  if bool_decide (channel_name ∉ ch_names (raw self)) then
    Raise (Exn ValueError
      ("Channel '" +:+ channel_name +:+ "' not found. Available channels: "
       +:+ py_repr_list (ch_names (raw self))))
  else
    '(data, times) ← get_data self (Some [channel_name]);
    first ← row data 0;
    mret (first, times).

End Converter.

(** ** The outside world *)

(** What [csv.writer.writerow] is given: header cells are strings, data
    cells are floats. *)
Inductive csv_cell :=
  | CellStr (s : string)
  | CellFloat (x : Q).

(** The values [json.dump] serialises.  A [JDict] keeps Python's insertion
    order. *)
Inductive json :=
  | JNull
  | JInt (n : nat)
  | JFloat (x : Q)
  | JStr (s : string)
  | JList (l : list json)
  | JDict (items : list (string * json)).

(** The arrays [np.savez_compressed] stores under a name. *)
Inductive npz_entry :=
  | NpzMatrix (d : list (list Q))
  | NpzVector (v : list Q)
  | NpzStrings (l : list string)
  | NpzScalar (x : Q).

Inductive file_content :=
  | CsvFile (rows : list (list csv_cell))
  | JsonFile (j : json)
  | NpzFile (entries : list (string * npz_entry)).

(** The files written so far, which paths can be opened for writing, the
    exception the operating system answers with for the others, and the
    lines printed. *)
Record World := {
  files : gmap string file_content;
  writable : string → bool;
  open_error : string → exn;
  stdout : list string;
}.

(** The converter object together with the world its methods act on. *)
Record State := {
  self : EDFConverter;
  world : World;
}.

Definition M (A : Type) : Type := State → result A * State.

#[global] Instance M_ret : MRet M := λ A a s, (Ok a, s).
#[global] Instance M_bind : MBind M := λ A B f m s,
  match m s with
  | (Ok a, s') => f a s'
  | (Raise e, s') => (Raise e, s')
  end.

Definition get_self : M EDFConverter := λ s, (Ok (self s), s).

Definition lift {A} (r : result A) : M A := λ s, (r, s).

(** [open(path, 'w')] followed by writing [content] and closing. *)
Definition write_file (path : string) (content : file_content) : M unit := λ s,
  if writable (world s) path then
    (Ok (), {| self := self s;
               world := {| files := <[path := content]> (files (world s));
                           writable := writable (world s);
                           open_error := open_error (world s);
                           stdout := stdout (world s) |} |})
  else (Raise (open_error (world s) path), s).

Definition print (line : string) : M unit := λ s,
  (Ok (), {| self := self s;
             world := {| files := files (world s);
                         writable := writable (world s);
                           open_error := open_error (world s);
                         stdout := stdout (world s) ++ [line] |} |}).

(** ** The exporters *)

Definition time_cell (include_time : bool) (t : Q) : list csv_cell :=
  if include_time then [CellFloat t] else [].

(** The loop [for i in range(len(times))] of [to_csv], entered at index
    [i] with [times[i:]]: the rows written, and the exception that stopped
    the loop, if any. *)
Fixpoint csv_rows_from (include_time : bool) (data : list (list Q))
    (times : list Q) (i : nat) : list (list csv_cell) * option exn :=
  match times with
  | [] => ([], None)
  | t :: rest =>
      match column data i with
      | Raise e => ([], Some e)
      | Ok col =>
          let '(rows, err) := csv_rows_from include_time data rest (S i) in
          ((time_cell include_time t ++ (CellFloat <$> col)) :: rows, err)
      end
  end.

Definition csv_header (include_time : bool) (names : list string)
  : list csv_cell :=
  (if include_time then [CellStr "Time"] else []) ++ (CellStr <$> names).

(** [d[key] = value] on a dictionary. *)
Fixpoint dict_set (d : list (string * json)) (key : string) (value : json)
  : list (string * json) :=
  match d with
  | [] => [(key, value)]
  | (k, v) :: rest =>
      if String.eqb k key then (k, value) :: rest
      else (k, v) :: dict_set rest key value
  end.

(** The loop [for i, ch_name in enumerate(ch_names)] of [to_json], entered
    at index [i] with the dictionary built so far. *)
Fixpoint json_channels_from (data : list (list Q)) (names : list string)
    (i : nat) (acc : list (string * json)) : result (list (string * json)) :=
  match names with
  | [] => Ok acc
  | name :: rest =>
      r ← row data i;
      json_channels_from data rest (S i) (dict_set acc name (JList (JFloat <$> r)))
  end.

Definition info_json (info : Info) : json :=
  JDict [("filename", JStr (filename info));
         ("n_channels", JInt (n_channels info));
         ("channel_names", JList (JStr <$> channel_names info));
         ("sampling_rate", JFloat (sampling_rate info));
         ("duration_seconds", JFloat (duration_seconds info));
         ("n_samples", JInt (n_samples info));
         ("measurement_date", from_option JStr JNull (measurement_date info))].

(** [np.savez_compressed] appends [.npz] to a file name that lacks it. *)
Definition npz_path (output_path : string) : string :=
  if endswith output_path ".npz" then output_path else output_path +:+ ".npz".

Section Exporters.

Variable ordered_default : bool.

Definition to_csv (output_path : string) (channels : option (list string))
    (include_time : bool) : M unit :=
  self ← get_self;
  '(data, times) ← lift (get_data ordered_default self channels);
  let ch_names := export_names self channels in
  let '(rows, err) := csv_rows_from include_time data times 0 in
  write_file output_path (CsvFile (csv_header include_time ch_names :: rows));;
  match err with
  | Some e => lift (Raise e)
  | None => print ("CSV file saved to: " +:+ output_path)
  end.

Definition to_json (output_path : string) (channels : option (list string))
    (include_metadata : bool) : M unit :=
  self ← get_self;
  '(data, times) ← lift (get_data ordered_default self channels);
  let ch_names := export_names self channels in
  metadata ← (if include_metadata then
                info ← lift (get_info self);
                mret [("metadata", info_json info)]
              else mret []);
  chans ← lift (json_channels_from data ch_names 0 []);
  let output :=
    JDict (metadata ++
           [("data", JDict [("times", JList (JFloat <$> times));
                            ("channels", JDict chans)])]) in
  write_file output_path (JsonFile output);;
  print ("JSON file saved to: " +:+ output_path).

Definition to_numpy (output_path : string) (channels : option (list string))
  : M unit :=
  self ← get_self;
  '(data, times) ← lift (get_data ordered_default self channels);
  let ch_names := export_names self channels in
  write_file (npz_path output_path)
    (NpzFile [("data", NpzMatrix data);
              ("times", NpzVector times);
              ("channel_names", NpzStrings ch_names);
              ("sampling_rate", NpzScalar (sfreq (raw self)))]);;
  print ("NumPy file saved to: " +:+ output_path).

(** One call of an exporter, with its arguments. *)
Inductive export_call :=
  | Call_to_csv (output_path : string) (channels : option (list string))
      (include_time : bool)
  | Call_to_json (output_path : string) (channels : option (list string))
      (include_metadata : bool)
  | Call_to_numpy (output_path : string) (channels : option (list string)).

Definition run_export (c : export_call) : M unit :=
  match c with
  | Call_to_csv p ch t => to_csv p ch t
  | Call_to_json p ch m => to_json p ch m
  | Call_to_numpy p ch => to_numpy p ch
  end.

End Exporters.

(** ** A small recording to evaluate on *)

Definition raw_AB : Raw :=
  {| ch_names := ["A"; "B"];
     sfreq := 4%Q;
     n_times := 4;
     _data := [[1; 2; 3; 4]%Q; [10; 20; 30; 40]%Q];
     meas_date := None |}.

Definition conv_AB : EDFConverter := {| filepath := "rec/ab.edf"; raw := raw_AB |}.

Definition world0 : World :=
  {| files := ∅;
     writable := λ p, negb (String.eqb p "/readonly/out");
     open_error := λ p,
       Exn PermissionError ("[Errno 13] Permission denied: " +:+ py_repr_str p);
     stdout := [] |}.

Definition st_AB : State := {| self := conv_AB; world := world0 |}.

(** A recording as the converter holds the file of the spec's example:
    two channels declared with 4 and 2 samples per record, 3 data records
    of one second.  The sampling frequency is that of the faster channel,
    and both rows of the matrix span the 12 points of the time axis.
    Channel B is constant in the file, so that bringing it to the rate of
    channel A leaves its value; the statements made on this recording
    are about its shape only. *)
Definition raw_example : Raw :=
  {| ch_names := ["A"; "B"];
     sfreq := 4%Q;
     n_times := 12;
     _data := [[1; 2; 3; 4; 5; 6; 7; 8; 9; 10; 11; 12]%Q;
               [10; 10; 10; 10; 10; 10; 10; 10; 10; 10; 10; 10]%Q];
     meas_date := Some "2024-01-01 00:00:00+00:00" |}.

Definition conv_example : EDFConverter :=
  {| filepath := "example.edf"; raw := raw_example |}.

Definition st_example : State := {| self := conv_example; world := world0 |}.

(** ** Vocabulary of the statements *)

(** The call [c] with its [channels] argument replaced. *)
Definition with_channels (c : export_call) (channels : option (list string))
  : export_call :=
  match c with
  | Call_to_csv p _ t => Call_to_csv p channels t
  | Call_to_json p _ m => Call_to_json p channels m
  | Call_to_numpy p _ => Call_to_numpy p channels
  end.

(** The stored row of the channel called [name]. *)
Definition channel_samples (r : Raw) (name : string) : list Q :=
  default [] (index_of (ch_names r) name ≫= λ i, _data r !! i).

(** The row [to_csv] writes for time-axis position [i]. *)
Definition csv_row (include_time : bool) (data : list (list Q)) (i : nat)
    (t : Q) : list csv_cell :=
  time_cell include_time t ++ (CellFloat <$> ((λ row, nth i row 0%Q) <$> data)).

(** [d[key]] and [list(d)] on a dictionary. *)
Fixpoint dict_get (d : list (string * json)) (key : string) : option json :=
  match d with
  | [] => None
  | (k, v) :: rest => if String.eqb k key then Some v else dict_get rest key
  end.

(** The dictionary the loop of [to_json] builds when row [i + k] of
    [data] holds [samples name] for the [k]-th name. *)
Definition json_fill (samples : string → list Q) (names : list string)
    (acc : list (string * json)) : list (string * json) :=
  foldl (λ d name, dict_set d name (JList (JFloat <$> samples name))) acc names.

(** The state after [content] was written to [path] and [line] printed. *)
Definition wrote (st : State) (path : string) (content : file_content)
    (line : string) : State :=
  {| self := self st;
     world := {| files := <[path := content]> (files (world st));
                 writable := writable (world st);
                 open_error := open_error (world st);
                 stdout := stdout (world st) ++ [line] |} |}.

(** Two states hold the same converter and agree on which paths can be
    written and on the errors of the others. *)
Definition same_object (s s' : State) : Prop :=
  self s = self s' ∧ writable (world s) = writable (world s')
  ∧ open_error (world s) = open_error (world s').

(** A computation is local when it leaves the converter and the writable
    paths as they were, and its outcome depends on nothing else. *)
Definition local {A} (m : M A) : Prop :=
  (∀ s, same_object s (m s).2)
  ∧ (∀ s s', same_object s s' → (m s).1 = (m s').1).

(** Whether a result is a failure whose message names the label [bad] and
    lists every label of [valid]. *)
Definition names_and_lists {A} (r : result A) (bad : string)
    (valid : list string) : bool :=
  match r with
  | Ok _ => false
  | Raise e => mentions (exc_msg e) bad && forallb (mentions (exc_msg e)) valid
  end.

(** Every cell of a written data row is a number. *)
Definition numeric_row (row : list csv_cell) : Prop :=
  Forall (λ c, ∃ x, c = CellFloat x) row.

(** The names under which an archive stores its arrays. *)
Definition npz_names (content : option file_content) : list string :=
  match content with
  | Some (NpzFile entries) => entries.*1
  | _ => []
  end.

(** ** The command line: [main] *)

(** [s.lower()] on text in ASCII: the letters A to Z become a to z. *)
Definition ascii_lower (c : ascii) : ascii :=
  let n := nat_of_ascii c in
  if (65 <=? n)%nat && (n <=? 90)%nat then ascii_of_nat (n + 32) else c.

Fixpoint lower (s : string) : string :=
  match s with
  | EmptyString => EmptyString
  | String c rest => String (ascii_lower c) (lower rest)
  end.

(** [name.rfind('.')]. *)
Fixpoint rfind_dot (name : string) : option nat :=
  match name with
  | EmptyString => None
  | String c rest =>
      match rfind_dot rest with
      | Some i => Some (S i)
      | None => if Ascii.eqb c "."%char then Some 0%nat else None
      end
  end.

(** [Path(p).stem]: the name without its last suffix; a dot that starts
    or ends the name does not begin a suffix. *)
Definition posix_stem (p : string) : string :=
  let name := posix_name p in
  match rfind_dot name with
  | Some i =>
      if (0 <? i)%nat && (i <? String.length name - 1)%nat
      then String.substring 0 i name else name
  | None => name
  end.

(** [c * n] for a one-character string. *)
Fixpoint repeat_char (c : ascii) (n : nat) : string :=
  match n with
  | O => EmptyString
  | S n' => String c (repeat_char c n')
  end.

(** How [main] ends: it returns, or [sys.exit(status)] is raised. *)
Inductive outcome :=
  | Returned
  | Exited (status : nat).

(** Several calls of [print] in a row. *)
Definition say (lines : list string) (w : World) : World :=
  {| files := files w; writable := writable w; open_error := open_error w;
     stdout := stdout w ++ lines |}.

Definition usage : list string :=
  ["Usage: python edf_converter.py <input_edf_file> [output_format]";
   "Formats: csv, json, numpy, info";
   "Example: python edf_converter.py example.edf csv"].

(** A method called on a fresh converter under [main]'s
    [except Exception] handler. *)
Definition run_method (converter : EDFConverter) (m : M unit) (w : World)
  : outcome * World :=
  match m {| self := converter; world := w |} with
  | (Ok _, st') => (Returned, world st')
  | (Raise e, st') => (Exited 1, say ["Error: " +:+ exc_msg e] (world st'))
  end.

Section Main.

(** The default of [ordered] in the installed [mne.pick_channels], the
    file system, the decoder, and [str] on a float. *)
Variable ordered_default : bool.
Variable path_exists : string → bool.
Variable read_raw_edf : string → result Raw.
Variable str_float : Q → string.

(** The items of the dictionary of [get_info], each value as [str]
    renders it. *)
Definition info_items (info : Info) : list (string * string) :=
  [("filename", filename info);
   ("n_channels", pretty (n_channels info));
   ("channel_names", py_repr_list (channel_names info));
   ("sampling_rate", str_float (sampling_rate info));
   ("duration_seconds", str_float (duration_seconds info));
   ("n_samples", pretty (n_samples info));
   ("measurement_date", default "None" (measurement_date info))].

Definition info_lines (info : Info) : list string :=
  (λ item, item.1 +:+ ": " +:+ item.2) <$> info_items info.

(** [main()] run with [sys.argv = argv]. *)
Definition main (argv : list string) (w : World) : outcome * World :=
  match argv with
  | _ :: input_file :: rest =>
      let output_format :=
        match rest with fmt :: _ => lower fmt | [] => "info" end in
      match __init__ path_exists read_raw_edf input_file with
      | Raise e => (Exited 1, say ["Error: " +:+ exc_msg e] w)
      | Ok converter =>
          if String.eqb output_format "info" then
            let w1 := say [String "010"%char "EDF File Information:";
                           repeat_char "-"%char 50] w in
            match get_info converter with
            | Ok info => (Returned, say (info_lines info) w1)
            | Raise e => (Exited 1, say ["Error: " +:+ exc_msg e] w1)
            end
          else if String.eqb output_format "csv" then
            run_method converter
              (to_csv ordered_default (posix_stem input_file +:+ ".csv")
                 None true) w
          else if String.eqb output_format "json" then
            run_method converter
              (to_json ordered_default (posix_stem input_file +:+ ".json")
                 None true) w
          else if String.eqb output_format "numpy"
                  || String.eqb output_format "npz" then
            run_method converter
              (to_numpy ordered_default (posix_stem input_file +:+ ".npz")
                 None) w
          else
            (Exited 1,
             say ["Unknown format: " +:+ output_format;
                  "Available formats: csv, json, numpy, info"] w)
      end
  | _ => (Exited 1, say usage w)
  end.

End Main.

(** The file an exporter call writes and the line it prints on success. *)
Definition export_dest (c : export_call) : string :=
  match c with
  | Call_to_csv p _ _ | Call_to_json p _ _ => p
  | Call_to_numpy p _ => npz_path p
  end.

Definition export_line (c : export_call) : string :=
  match c with
  | Call_to_csv p _ _ => "CSV file saved to: " +:+ p
  | Call_to_json p _ _ => "JSON file saved to: " +:+ p
  | Call_to_numpy p _ => "NumPy file saved to: " +:+ p
  end.

(** A recording with one channel and no sample. *)
Definition raw_empty : Raw :=
  {| ch_names := ["A"]; sfreq := 256%Q; n_times := 0; _data := [[]];
     meas_date := None |}.

Definition st_empty : State :=
  {| self := {| filepath := "empty.edf"; raw := raw_empty |}; world := world0 |}.

(** The format [main] acts on: the lowered third argument, or [info]. *)
Definition requested_format (rest : list string) : string :=
  match rest with fmt :: _ => lower fmt | [] => "info" end.

(** [os.path.splitext(path)[1][1:]]: the text after the last dot of the
    part behind the last slash, unless that dot is among the dots the
    part starts with. *)
Fixpoint leading_dots (name : string) : nat :=
  match name with
  | String c rest => if Ascii.eqb c "."%char then S (leading_dots rest) else 0
  | EmptyString => 0
  end.

Definition file_extension (path : string) : string :=
  let name := default "" (last (split_slash path)) in
  match rfind_dot name with
  | Some i =>
      if (leading_dots name <=? i)%nat
      then String.substring (S i) (String.length name - S i) name
      else ""
  | None => ""
  end.

(** A stand-in for the decoder, to evaluate with.  Like
    [mne.io.read_raw_edf] it refuses a file whose extension is not [edf];
    every other file it takes to hold the recording [raw_AB], a file
    whose last data record is cut short included, which mne reads up to
    its last complete record. *)
Definition read_raw_edf_sample (path : string) : result Raw :=
  let ext := lower (file_extension path) in
  if String.eqb ext "edf" then Ok raw_AB
  else Raise (Exn NotImplementedError
                ("Only EDF files are supported, got " +:+ ext +:+ ".")).

(** A stand-in for [str] on floats, to evaluate [main] with. *)
Definition str_float_sample (x : Q) : string :=
  pretty (Qnum x) +:+ "/" +:+ pretty (Zpos (Qden x)).

(** * Properties *)

(** ** Loaded recordings and the arrays read from them *)

Lemma raw_ok_inv (r : Raw) :
  raw_ok r = true →
  ch_names r ≠ [] ∧ NoDup (ch_names r)
  ∧ length (_data r) = length (ch_names r)
  ∧ Forall (λ row, length row = n_times r) (_data r).
Proof.
  unfold raw_ok. rewrite !andb_true_iff, !bool_decide_eq_true.
  intros [[[Hne Hnd] Hlen] Hrows]. split_and!; try done.
  apply Forall_forall. intros x Hx.
  rewrite forallb_forall in Hrows.
  apply Nat.eqb_eq, Hrows. by apply list_elem_of_In.
Qed.

Lemma length_times (r : Raw) : length (times r) = n_times r.
Proof. unfold times. by rewrite length_fmap, length_seq. Qed.

Lemma times_lookup (r : Raw) (i : nat) :
  (i < n_times r)%nat →
  times r !! i = Some (inject_Z (Z.of_nat i) / sfreq r)%Q.
Proof.
  intros Hi. unfold times. rewrite list_lookup_fmap, lookup_seq_lt by done.
  done.
Qed.

Lemma mapM_lookup_seq {A} (l : list A) :
  mapM (λ k, l !! k) (seq 0 (length l)) = Some l.
Proof.
  apply mapM_Some, Forall2_same_length_lookup. split.
  - by rewrite length_seq.
  - intros i k x Hk Hx. apply lookup_seq in Hk as [-> _]. done.
Qed.

Lemma mapM_lookup_elem_of {A} (l : list A) (ks : list nat) (rows : list A) :
  mapM (λ k, l !! k) ks = Some rows → Forall (λ x, x ∈ l) rows.
Proof.
  intros H%mapM_Some. induction H as [|k x ks rows Hk _ IH]; constructor.
  - by eapply list_elem_of_lookup_2.
  - done.
Qed.

Lemma raw_get_data_all (r : Raw) :
  raw_ok r = true → raw_get_data r None = Ok (_data r).
Proof.
  intros (Hne & _ & Hlen & _)%raw_ok_inv. unfold raw_get_data. simpl.
  destruct (ch_names r) as [|n ns] eqn:E; [done|].
  rewrite <- Hlen.
  destruct (seq 0 (length (_data r))) eqn:Es.
  { rewrite Hlen in Es. done. }
  rewrite <- Es, mapM_lookup_seq. done.
Qed.

Lemma raw_get_data_rows (r : Raw) picks d :
  raw_get_data r picks = Ok d → Forall (λ row, row ∈ _data r) d.
Proof.
  unfold raw_get_data. destruct (default _ picks) as [|k ks]; [done|].
  destruct (mapM _ _) as [rows|] eqn:E; simpl; [|done].
  intros [= <-]. by eapply mapM_lookup_elem_of.
Qed.

Lemma get_data_inv ordered self channels d t :
  get_data ordered self channels = Ok (d, t) →
  t = times (raw self) ∧ Forall (λ row, row ∈ _data (raw self)) d.
Proof.
  unfold get_data. intros H.
  destruct (truthy channels).
  - destruct (pick_channels _ _ _) as [picks|e]; simpl in H; [|done].
    destruct (raw_get_data _ _) as [d'|e] eqn:E; simpl in H; [|done].
    injection H as <- <-. split; [done|]. by eapply raw_get_data_rows.
  - destruct (raw_get_data _ _) as [d'|e] eqn:E; simpl in H; [|done].
    injection H as <- <-. split; [done|]. by eapply raw_get_data_rows.
Qed.

Lemma get_info_ok conv :
  (0 < n_times (raw conv))%nat → ∃ info, get_info conv = Ok info.
Proof.
  intros Hn.
  assert (Hlast : is_Some (last (times (raw conv)))).
  { rewrite last_lookup. apply lookup_lt_is_Some. rewrite length_times. lia. }
  destruct Hlast as [tl Htl]. unfold get_info. rewrite Htl. by eexists.
Qed.

Lemma get_info_empty conv :
  n_times (raw conv) = 0%nat →
  get_info conv
  = Raise (Exn IndexError "index -1 is out of bounds for axis 0 with size 0").
Proof. intros Hn. unfold get_info, times. by rewrite Hn. Qed.

(** ** C1: channels of differing rates in the stored data *)

Lemma get_data_shape ordered conv channels d t :
  raw_ok (raw conv) = true →
  get_data ordered conv channels = Ok (d, t) →
  length t = n_times (raw conv)
  ∧ Forall (λ row, length row = length t) d
  ∧ Forall (λ row, row ∈ _data (raw conv)) d.
Proof.
  intros (_ & _ & _ & Hrows)%raw_ok_inv [-> Hd]%get_data_inv.
  rewrite length_times. split_and!; [done| |done].
  rewrite Forall_forall in Hrows |- *. intros r' Hr'.
  rewrite Forall_forall in Hd. by apply Hrows, Hd.
Qed.

(** C1, as amended: the data [get_data] returns is a rectangular array.
    Every returned channel row is a row of the stored matrix, handed over
    unchanged, and has exactly as many samples as the time axis, whatever
    the rates declared in the file were. *)
Theorem get_data_rectangular ordered conv channels d t :
  raw_ok (raw conv) = true →
  get_data ordered conv channels = Ok (d, t) →
  length t = n_times (raw conv)
  ∧ Forall (λ row, length row = length t) d
  ∧ Forall (λ row, row ∈ _data (raw conv)) d.
Proof. apply get_data_shape. Qed.

Lemma get_data_rectangular_witness :
  raw_ok (raw conv_example) = true
  ∧ get_data true conv_example (Some ["B"])
    = Ok ([nth 1 (_data raw_example) []], times raw_example)
  ∧ length (times raw_example) = 12%nat
  ∧ Forall (λ row, length row = length (times raw_example))
      [nth 1 (_data raw_example) []]
  ∧ Forall (λ row, row ∈ _data raw_example) [nth 1 (_data raw_example) []].
Proof.
  split; [reflexivity|]. split; [reflexivity|].
  apply (get_data_rectangular true conv_example (Some ["B"])
           [nth 1 (_data raw_example) []] (times raw_example));
    reflexivity.
Defined.

(** C1 as stated fails.  For the file of the spec's example the claim
    wants channel A stored with 4 * 3 = 12 samples and channel B with
    2 * 3 = 6.  The converter holds both with 12, and no loaded recording
    at all makes [get_data] return rows of 12 and 6 samples. *)
Lemma get_data_keeps_own_counts_counterexample :
  (length <$> _data (raw conv_example)) = [12; 12]%nat
  ∧ (∃ d, get_data true conv_example None = Ok (d, times raw_example)
          ∧ (length <$> d) = [12; 12]%nat)
  ∧ ¬ ∃ ordered conv channels d t,
        raw_ok (raw conv) = true
        ∧ get_data ordered conv channels = Ok (d, t)
        ∧ (length <$> d) = [4 * 3; 2 * 3]%nat.
Proof.
  split; [reflexivity|]. split.
  { eexists. split; reflexivity. }
  intros (ordered & conv & channels & d & t & Hok & Hget & Hlen).
  destruct (get_data_shape _ _ _ _ _ Hok Hget) as (_ & Hrect & _).
  destruct d as [|a [|b [|]]]; simplify_eq/=.
  inversion Hrect as [|?? Ha Hrest]; subst.
  inversion Hrest as [|?? Hb _]; subst. lia.
Qed.

(** ** C4: a failed decode yields no converter *)

(** C4, as amended: whenever the decoder raises, constructing the
    converter fails as a whole (with a [ValueError] carrying the
    decoder's message, or a [FileNotFoundError] if the path does not
    exist), so no converter object reaches the caller; and a converter
    that is returned holds exactly the recording of a decode that
    succeeded. *)
Theorem init_fails_when_decode_fails
    (path_exists : string → bool) (read_raw_edf : string → result Raw)
    (path : string) (e : exn) :
  read_raw_edf path = Raise e →
  (∀ c, __init__ path_exists read_raw_edf path ≠ Ok c)
  ∧ __init__ path_exists read_raw_edf path
    = Raise (if path_exists path
             then Exn ValueError ("Failed to read EDF file: " +:+ exc_msg e)
             else Exn FileNotFoundError ("EDF file not found: " +:+ path))
  ∧ ∀ path' c, __init__ path_exists read_raw_edf path' = Ok c →
               read_raw_edf path' = Ok (raw c) ∧ filepath c = path'.
Proof.
  intros Hfail.
  assert (Hinit : __init__ path_exists read_raw_edf path
    = Raise (if path_exists path
             then Exn ValueError ("Failed to read EDF file: " +:+ exc_msg e)
             else Exn FileNotFoundError ("EDF file not found: " +:+ path))).
  { unfold __init__. destruct (path_exists path); simpl; [|done].
    by rewrite Hfail. }
  split_and!; [|done|].
  - intros c Hc. rewrite Hinit in Hc. discriminate.
  - intros path' c. unfold __init__.
    destruct (path_exists path'); simpl; [|done].
    destruct (read_raw_edf path') as [r|e']; [|done].
    intros [= <-]. done.
Qed.

Lemma init_fails_when_decode_fails_witness :
  read_raw_edf_sample "notes.txt"
  = Raise (Exn NotImplementedError "Only EDF files are supported, got txt.")
  ∧ __init__ (λ _, true) read_raw_edf_sample "notes.txt"
    = Raise (Exn ValueError
               "Failed to read EDF file: Only EDF files are supported, got txt.").
Proof.
  split; [reflexivity|].
  apply (init_fails_when_decode_fails (λ _, true) read_raw_edf_sample
           "notes.txt"
           (Exn NotImplementedError "Only EDF files are supported, got txt.")).
  reflexivity.
Defined.

(** C4 as stated fails.  The claim counts a short data record among the
    decode failures that abort the load.  The constructor has no check of
    its own: it returns a converter whenever the decoder returns a
    recording, and for a file whose last data record is cut short the
    decoder does return one, that of the complete records. *)
Lemma init_accepts_truncated_file_counterexample :
  read_raw_edf_sample "truncated.edf" = Ok raw_AB
  ∧ __init__ (λ _, true) read_raw_edf_sample "truncated.edf"
    = Ok {| filepath := "truncated.edf"; raw := raw_AB |}
  ∧ ∀ path_exists read_raw_edf path r,
      path_exists path = true → read_raw_edf path = Ok r →
      __init__ path_exists read_raw_edf path
      = Ok {| filepath := path; raw := r |}.
Proof.
  split; [reflexivity|]. split; [reflexivity|].
  intros pe rd path r Hpe Hrd. unfold __init__. by rewrite Hpe, Hrd.
Qed.

(** ** C9: the duration [get_info] reports *)

(** C9: for a recording with at least one sample, [get_info] reports as
    [duration_seconds] the timestamp of the last sample,
    [(n_samples - 1) / sfreq], which for a non-zero rate is not
    [n_samples / sfreq]; [n_samples] is the length of the time axis. *)
Theorem get_info_duration_is_last_timestamp (self : EDFConverter) :
  (0 < n_times (raw self))%nat →
  ∃ info, get_info self = Ok info
    ∧ duration_seconds info
      = (inject_Z (Z.of_nat (n_times (raw self) - 1)) / sfreq (raw self))%Q
    ∧ last (times (raw self)) = Some (duration_seconds info)
    ∧ n_samples info = length (times (raw self))
    ∧ n_samples info = n_times (raw self)
    ∧ sampling_rate info = sfreq (raw self)
    ∧ (¬ (sfreq (raw self) == 0)%Q →
       ¬ (duration_seconds info
          == inject_Z (Z.of_nat (n_samples info)) / sampling_rate info)%Q).
Proof.
  intros Hn.
  assert (Hlast : last (times (raw self))
    = Some (inject_Z (Z.of_nat (n_times (raw self) - 1)) / sfreq (raw self))%Q).
  { rewrite last_lookup, length_times.
    replace (pred (n_times (raw self))) with (n_times (raw self) - 1)%nat by lia.
    apply times_lookup. lia. }
  unfold get_info. rewrite Hlast. simpl. eexists. split; [reflexivity|].
  simpl. rewrite length_times. split_and!; try done.
  intros Hf Heq.
  assert (H : (inject_Z (Z.of_nat (n_times (raw self) - 1))
               == inject_Z (Z.of_nat (n_times (raw self))))%Q).
  { rewrite <- (Qmult_div_r (inject_Z (Z.of_nat (n_times (raw self) - 1)))
                  (sfreq (raw self))) by done.
    rewrite Heq. by apply Qmult_div_r. }
  unfold Qeq in H. simpl in H. lia.
Qed.

Lemma get_info_duration_is_last_timestamp_witness :
  (0 < n_times (raw conv_AB))%nat
  ∧ ∃ info, get_info conv_AB = Ok info
    ∧ duration_seconds info = (inject_Z 3 / 4)%Q
    ∧ n_samples info = 4%nat.
Proof.
  split; [unfold conv_AB, raw_AB; simpl; lia|].
  destruct (get_info_duration_is_last_timestamp conv_AB) as (info & H).
  { unfold conv_AB, raw_AB; simpl; lia. }
  exists info. destruct H as (H1 & H2 & _ & _ & H5 & _).
  split_and!; assumption.
Defined.

(** ** The samples of a named channel *)

Lemma index_of_elem_of names name :
  name ∈ names →
  ∃ i, index_of names name = Some i ∧ names !! i = Some name.
Proof.
  intros Hin. unfold index_of.
  destruct (list_find_elem_of (λ n, n = name) names name Hin eq_refl)
    as [[i x] Hfind].
  rewrite Hfind. exists i. split; [done|].
  apply list_find_Some in Hfind as (Hi & -> & _). done.
Qed.

Lemma index_of_NoDup names k name :
  NoDup names → names !! k = Some name → index_of names name = Some k.
Proof.
  intros Hnd Hk.
  destruct (index_of_elem_of names name) as (i & Hi & Hlook).
  { by eapply list_elem_of_lookup_2. }
  rewrite Hi. f_equal. by eapply NoDup_lookup.
Qed.

Lemma channel_samples_lookup (r : Raw) k name :
  raw_ok r = true → ch_names r !! k = Some name →
  _data r !! k = Some (channel_samples r name).
Proof.
  intros (_ & Hnd & Hlen & _)%raw_ok_inv Hk. unfold channel_samples.
  rewrite (index_of_NoDup _ _ _ Hnd Hk). simpl.
  destruct (lookup_lt_is_Some_2 (_data r) k) as [row Hrow].
  { rewrite Hlen. by eapply lookup_lt_Some. }
  by rewrite Hrow.
Qed.

Lemma channel_samples_length (r : Raw) name :
  raw_ok r = true → name ∈ ch_names r →
  length (channel_samples r name) = n_times r.
Proof.
  intros Hok Hin. apply list_elem_of_lookup in Hin as [k Hk].
  pose proof (channel_samples_lookup r k name Hok Hk) as Hrow.
  apply raw_ok_inv in Hok as (_ & _ & _ & Hrows).
  rewrite Forall_forall in Hrows. apply Hrows.
  by eapply list_elem_of_lookup_2.
Qed.

(** ** The loops of the exporters *)

Lemma column_ok (data : list (list Q)) (i : nat) :
  Forall (λ row, (i < length row)%nat) data →
  column data i = Ok ((λ row, nth i row 0%Q) <$> data).
Proof.
  intros H. unfold column.
  replace (mapM (λ row : list Q, row !! i) data)
    with (Some ((λ row, nth i row 0%Q) <$> data)); [done|].
  symmetry. apply mapM_Some. apply Forall2_fmap_r, Forall_Forall2_diag.
  eapply Forall_impl; [exact H|]. intros row Hrow. simpl.
  destruct (lookup_lt_is_Some_2 row i Hrow) as [x Hx].
  rewrite Hx. f_equal. symmetry. by apply nth_lookup_Some with (d := 0%Q).
Qed.

Lemma csv_rows_from_ok include_time data (ts : list Q) (i : nat) :
  Forall (λ row, (i + length ts ≤ length row)%nat) data →
  csv_rows_from include_time data ts i
  = (imap (λ k t, csv_row include_time data (i + k) t) ts, None).
Proof.
  revert i. induction ts as [|t ts IH]; intros i H; simpl; [done|].
  rewrite column_ok.
  2:{ eapply Forall_impl; [exact H|]. simpl. intros; lia. }
  rewrite IH.
  2:{ eapply Forall_impl; [exact H|]. simpl. intros; lia. }
  unfold csv_row at 2. rewrite Nat.add_0_r. do 2 f_equal.
  apply imap_ext. intros k x _. simpl. f_equal. lia.
Qed.

Lemma dict_get_set_eq d key v : dict_get (dict_set d key v) key = Some v.
Proof.
  induction d as [|[k w] d IH]; simpl.
  - by rewrite String.eqb_refl.
  - destruct (String.eqb k key) eqn:E; simpl; rewrite E; done.
Qed.

Lemma dict_get_set_ne d key key' v :
  key ≠ key' → dict_get (dict_set d key v) key' = dict_get d key'.
Proof.
  intros Hne. induction d as [|[k w] d IH]; simpl.
  - destruct (String.eqb key key') eqn:E; [|done].
    apply String.eqb_eq in E. done.
  - destruct (String.eqb k key) eqn:E; simpl.
    + apply String.eqb_eq in E as ->.
      destruct (String.eqb key key') eqn:E'; [|done].
      apply String.eqb_eq in E'. done.
    + destruct (String.eqb k key'); done.
Qed.

Lemma dict_set_keys_fresh d key v :
  key ∉ d.*1 → (dict_set d key v).*1 = d.*1 ++ [key].
Proof.
  induction d as [|[k w] d IH]; [done|].
  rewrite fmap_cons. intros Hnot.
  apply not_elem_of_cons in Hnot as [Hne Hnot]. simpl in Hne.
  cbn [dict_set]. destruct (String.eqb k key) eqn:E.
  - apply String.eqb_eq in E. done.
  - rewrite fmap_cons, IH by done. done.
Qed.

Lemma json_channels_from_ok (samples : string → list Q) data names i acc :
  (∀ k name, names !! k = Some name →
             data !! (i + k)%nat = Some (samples name)) →
  json_channels_from data names i acc = Ok (json_fill samples names acc).
Proof.
  revert i acc. induction names as [|name names IH]; intros i acc H; [done|].
  simpl. unfold row.
  rewrite <- (Nat.add_0_r i) at 1. rewrite (H 0%nat name eq_refl). simpl.
  apply IH. intros k name' Hk.
  replace (S i + k)%nat with (i + S k)%nat by lia. by apply H.
Qed.

Lemma json_fill_get samples names acc name :
  name ∈ names →
  dict_get (json_fill samples names acc) name
  = Some (JList (JFloat <$> samples name)).
Proof.
  unfold json_fill. revert acc.
  induction names as [|n names IH] using rev_ind; intros acc Hin.
  - by apply elem_of_nil in Hin.
  - rewrite foldl_app. simpl.
    destruct (decide (n = name)) as [->|Hne].
    + apply dict_get_set_eq.
    + rewrite dict_get_set_ne by done. apply IH.
      apply elem_of_app in Hin as [Hin|Hin]; [done|].
      apply list_elem_of_singleton in Hin. done.
Qed.

Lemma json_fill_keys samples names :
  NoDup names → (json_fill samples names []).*1 = names.
Proof.
  unfold json_fill.
  induction names as [|n names IH] using rev_ind; intros Hnd; [done|].
  apply NoDup_app in Hnd as (Hnd & Hdisj & _).
  rewrite foldl_app. simpl. rewrite dict_set_keys_fresh.
  - by rewrite IH.
  - rewrite IH by done. intros Hin. eapply Hdisj; [exact Hin|].
    apply list_elem_of_singleton. done.
Qed.

(** ** What a successful export leaves behind *)

Lemma to_csv_run ordered p channels t st d ts :
  get_data ordered (self st) channels = Ok (d, ts) →
  Forall (λ row, (length ts ≤ length row)%nat) d →
  writable (world st) p = true →
  to_csv ordered p channels t st
  = (Ok (),
     wrote st p
       (CsvFile (csv_header t (export_names (self st) channels)
                 :: imap (λ k tm, csv_row t d k tm) ts))
       ("CSV file saved to: " +:+ p)).
Proof.
  intros Hget Hrect Hw.
  unfold to_csv, mbind, M_bind, get_self, lift. rewrite Hget.
  rewrite csv_rows_from_ok by done.
  unfold write_file. rewrite Hw. done.
Qed.

Lemma to_json_run ordered p channels (m : bool) st d ts chans info :
  get_data ordered (self st) channels = Ok (d, ts) →
  (m = true → get_info (self st) = Ok info) →
  json_channels_from d (export_names (self st) channels) 0 [] = Ok chans →
  writable (world st) p = true →
  to_json ordered p channels m st
  = (Ok (),
     wrote st p
       (JsonFile
          (JDict ((if m then [("metadata", info_json info)] else [])
                  ++ [("data", JDict [("times", JList (JFloat <$> ts));
                                      ("channels", JDict chans)])])))
       ("JSON file saved to: " +:+ p)).
Proof.
  intros Hget Hinfo Hch Hw.
  unfold to_json, mbind, M_bind, get_self, lift. rewrite Hget.
  destruct m.
  - rewrite Hinfo by done. unfold mret, M_ret. rewrite Hch.
    unfold write_file. simpl. rewrite Hw. done.
  - unfold mret, M_ret. rewrite Hch.
    unfold write_file. simpl. rewrite Hw. done.
Qed.

Lemma to_numpy_run ordered p channels st d ts :
  get_data ordered (self st) channels = Ok (d, ts) →
  writable (world st) (npz_path p) = true →
  to_numpy ordered p channels st
  = (Ok (),
     wrote st (npz_path p)
       (NpzFile [("data", NpzMatrix d);
                 ("times", NpzVector ts);
                 ("channel_names", NpzStrings (export_names (self st) channels));
                 ("sampling_rate", NpzScalar (sfreq (raw (self st))))])
       ("NumPy file saved to: " +:+ p)).
Proof.
  intros Hget Hw.
  unfold to_numpy, mbind, M_bind, get_self, lift. rewrite Hget.
  unfold write_file. rewrite Hw. done.
Qed.

(** ** C8: exporters leave the converter alone *)

Lemma same_object_trans s1 s2 s3 :
  same_object s1 s2 → same_object s2 s3 → same_object s1 s3.
Proof. intros (? & ? & ?) (? & ? & ?). split_and!; congruence. Qed.

Lemma same_object_sym s1 s2 : same_object s1 s2 → same_object s2 s1.
Proof. intros (? & ? & ?). split_and!; congruence. Qed.

Lemma local_ret {A} (a : A) : local (mret a).
Proof. split; [by intros s; split|done]. Qed.

Lemma local_lift {A} (r : result A) : local (lift r).
Proof. split; [by intros s; split|done]. Qed.

Lemma local_get_self : local get_self.
Proof. split; [by intros s; split|]. intros s s' [H _]. simpl. by rewrite H. Qed.

Lemma local_print line : local (print line).
Proof. split; [by intros s; split|done]. Qed.

Lemma local_write_file path content : local (write_file path content).
Proof.
  split.
  - intros s. unfold write_file. by destruct (writable (world s) path); split.
  - intros s s' (_ & Hw & He). unfold write_file. rewrite <- Hw, <- He.
    by destruct (writable (world s) path).
Qed.

Lemma local_bind {A B} (m : M A) (f : A → M B) :
  local m → (∀ a, local (f a)) → local (m ≫= f).
Proof.
  intros [Hm1 Hm2] Hf. split.
  - intros s. unfold mbind, M_bind. specialize (Hm1 s).
    destruct (m s) as [[a|e] s1]; simpl in *; [|done].
    eapply same_object_trans; [exact Hm1|]. apply (Hf a).
  - intros s s' Hss. unfold mbind, M_bind.
    pose proof (Hm2 s s' Hss) as Hr.
    pose proof (Hm1 s) as H1. pose proof (Hm1 s') as H1'.
    destruct (m s) as [r s1], (m s') as [r' s1']; simpl in *. subst r'.
    destruct r as [a|e]; [|done].
    apply (Hf a). eapply same_object_trans; [|exact H1'].
    eapply same_object_trans; [|exact Hss]. by apply same_object_sym.
Qed.

Create HintDb local.
#[local] Hint Resolve local_ret local_lift local_get_self local_print
  local_write_file : local.

Ltac solve_local :=
  repeat first
    [ apply local_bind; [|intros ?]
    | progress eauto with local
    | match goal with
      | |- local (match ?x with _ => _ end) => destruct x
      | |- local (let '(_, _) := ?x in _) => destruct x
      end ].

Lemma local_run_export ordered c : local (run_export ordered c).
Proof.
  destruct c as [p ch t|p ch m|p ch]; simpl.
  - unfold to_csv. solve_local.
  - unfold to_json. solve_local.
  - unfold to_numpy. solve_local.
Qed.

(** C8: an exporter call that fails leaves the converter object as it
    was, recording included.  Any later export on that object therefore
    has the outcome it would have had before the failure, and exporting
    all channels to a writable destination succeeds; no exporter reads
    the EDF file again, the decoder not being among their inputs. *)
Theorem export_failure_leaves_store_unchanged ordered c st e st' :
  run_export ordered c st = (Raise e, st') →
  self st' = self st
  ∧ (∀ c2, (run_export ordered c2 st').1 = (run_export ordered c2 st).1)
  ∧ (raw_ok (raw (self st)) = true →
     (∀ p t, writable (world st) p = true →
             (to_csv ordered p None t st').1 = Ok ())
     ∧ (∀ p m, writable (world st) p = true →
               (m = true → (0 < n_times (raw (self st)))%nat) →
               (to_json ordered p None m st').1 = Ok ())
     ∧ (∀ p, writable (world st) (npz_path p) = true →
             (to_numpy ordered p None st').1 = Ok ())).
Proof.
  intros Hrun.
  destruct (local_run_export ordered c) as [Hframe _].
  specialize (Hframe st). rewrite Hrun in Hframe. simpl in Hframe.
  destruct Hframe as (Hself & Hw & Herr). split_and!.
  - done.
  - intros c2. apply (local_run_export ordered c2).
    apply same_object_sym. by split_and!.
  - intros Hok. rewrite Hself in Hok.
    pose proof (raw_ok_inv _ Hok) as (_ & _ & Hlen & Hrows).
    assert (Hget : get_data ordered (self st') None
                   = Ok (_data (raw (self st')), times (raw (self st')))).
    { unfold get_data. simpl. by rewrite raw_get_data_all. }
    split_and!.
    + intros p t Hp. erewrite to_csv_run; [done|exact Hget| |by rewrite <- Hw].
      eapply Forall_impl; [exact Hrows|]. simpl. intros row ->.
      by rewrite length_times.
    + intros p m Hp Hm.
      assert (Hch : json_channels_from (_data (raw (self st')))
                      (export_names (self st') None) 0 []
                    = Ok (json_fill (channel_samples (raw (self st')))
                            (ch_names (raw (self st'))) [])).
      { apply json_channels_from_ok. intros k name Hk.
        by apply channel_samples_lookup. }
      destruct m.
      * destruct (get_info_ok (self st')) as (info & Hinfo).
        { rewrite <- Hself. by apply Hm. }
        erewrite (to_json_run _ _ _ true); [done|exact Hget|done|exact Hch|].
        by rewrite <- Hw.
      * erewrite (to_json_run _ _ _ false _ _ _ _
                    {| filename := ""; n_channels := 0; channel_names := [];
                       sampling_rate := 0; duration_seconds := 0;
                       n_samples := 0; measurement_date := None |});
          [done|exact Hget|done|exact Hch|].
        by rewrite <- Hw.
    + intros p Hp. erewrite to_numpy_run; [done|exact Hget|by rewrite <- Hw].
Qed.

Lemma export_failure_leaves_store_unchanged_witness :
  run_export false (Call_to_json "out.json" (Some ["A"; "ZZZ"]) true) st_AB
  = (Raise (Exn IndexError "index 1 is out of bounds for axis 0 with size 1"), st_AB)
  ∧ self st_AB = conv_AB
  ∧ (to_csv false "out.csv" None true st_AB).1 = Ok ().
Proof.
  split; [reflexivity|].
  destruct (export_failure_leaves_store_unchanged false
              (Call_to_json "out.json" (Some ["A"; "ZZZ"]) true) st_AB
              (Exn IndexError "index 1 is out of bounds for axis 0 with size 1") st_AB
              eq_refl) as (Hself & _ & Hretry).
  split; [exact Hself|].
  destruct (Hretry eq_refl) as (Hcsv & _ & _).
  apply Hcsv. reflexivity.
Defined.

(** ** Error messages *)

Lemma prefix_app (s t : string) : String.prefix s (s +:+ t) = true.
Proof.
  induction s as [|c s IH]; simpl; [by destruct t|].
  destruct (Ascii.ascii_dec c c); [done|congruence].
Qed.

Lemma prefix_app_l (s a b : string) :
  String.prefix s a = true → String.prefix s (a +:+ b) = true.
Proof.
  revert a. induction s as [|c s IH]; intros a; simpl.
  - by destruct (a +:+ b).
  - destruct a as [|c' a]; [done|]. simpl.
    destruct (Ascii.ascii_dec c c'); [apply IH|done].
Qed.

Lemma mentions_app_l (a b s : string) :
  mentions a s = true → mentions (a +:+ b) s = true.
Proof.
  induction a as [|c a IH]; simpl.
  - rewrite orb_false_r. intros H. destruct s; [|done].
    by destruct b.
  - intros [H|H]%orb_true_iff; apply orb_true_iff.
    + left. by apply (prefix_app_l s (String c a) b).
    + right. by apply IH.
Qed.

Lemma mentions_app_r (a b s : string) :
  mentions b s = true → mentions (a +:+ b) s = true.
Proof.
  intros H. induction a as [|c a IH]; simpl; [done|].
  apply orb_true_iff. by right.
Qed.

Lemma mentions_self_app (s t : string) : mentions (s +:+ t) s = true.
Proof.
  assert (H : ∀ h, String.prefix s h = true → mentions h s = true).
  { intros [|c h] Hp; cbn [mentions]; by rewrite Hp. }
  apply H, prefix_app.
Qed.

Lemma mentions_concat (sep x : string) (strs : list string) (s : string) :
  s ∈ strs → mentions s x = true →
  mentions (String.concat sep strs) x = true.
Proof.
  intros Hin Hs. induction Hin as [s strs|s s' strs Hin IH].
  - simpl. destruct strs; [done|]. by apply mentions_app_l.
  - simpl. destruct strs as [|s'' strs]; [by apply elem_of_nil in Hin|].
    apply mentions_app_r, mentions_app_r. by apply IH.
Qed.

Lemma mentions_self (s : string) : mentions s s = true.
Proof.
  assert (H : String.prefix s s = true).
  { induction s as [|c s IH]; simpl; [done|].
    destruct (Ascii.ascii_dec c c); [done|congruence]. }
  destruct s; cbn [mentions]; by rewrite H.
Qed.

Lemma py_repr_list_mentions (l : list string) (name : string) :
  name ∈ l → mentions (py_repr_list l) (py_repr_str name) = true.
Proof.
  intros Hin. unfold py_repr_list.
  apply (mentions_app_r "["), mentions_app_l.
  apply (mentions_concat _ _ _ (py_repr_str name)).
  - by apply list_elem_of_fmap_2.
  - apply mentions_self.
Qed.

Lemma py_repr_char_plain (c : ascii) :
  plain_char c = true → py_repr_char "'"%char c = String c EmptyString.
Proof.
  destruct c as [[] [] [] [] [] [] [] []]; intros H;
    first [discriminate H | reflexivity].
Qed.

Lemma plain_char_not_apostrophe (c : ascii) :
  plain_char c = true → Ascii.eqb c "'"%char = false.
Proof.
  unfold plain_char. rewrite !andb_true_iff.
  intros [[_ H] _]. by apply negb_true_iff.
Qed.

Lemma py_repr_body_plain (s : string) :
  plain_text s = true → py_repr_body "'"%char s = s.
Proof.
  induction s as [|c s IH]; [done|]. cbn [plain_text py_repr_body].
  intros [Hc Hs]%andb_true_iff.
  by rewrite (py_repr_char_plain c Hc), IH.
Qed.

Lemma plain_text_no_apostrophe (s : string) :
  plain_text s = true → contains_char "'"%char s = false.
Proof.
  induction s as [|c s IH]; [done|]. cbn [plain_text contains_char].
  intros [Hc Hs]%andb_true_iff.
  by rewrite (plain_char_not_apostrophe c Hc), IH.
Qed.

Lemma py_repr_str_plain (s : string) :
  plain_text s = true → py_repr_str s = "'" +:+ s +:+ "'".
Proof.
  intros Hs. unfold py_repr_str.
  rewrite (plain_text_no_apostrophe s Hs). cbn [andb].
  by rewrite (py_repr_body_plain s Hs).
Qed.

(** ** C3: labels that are not in the recording *)

Lemma pick_channels_missing names include name :
  NoDup names → name ∈ include → name ∉ names →
  ∃ missing, name ∈ missing
    ∧ pick_channels true names include
      = Raise (Exn ValueError
                 ("Missing channels from ch_names required by include:"
                  +:+ String "010"%char (py_repr_list missing))).
Proof.
  intros Hnd Hin Hnot. unfold pick_channels.
  rewrite bool_decide_eq_true_2 by done. simpl.
  destruct include as [|n include]; [by apply elem_of_nil in Hin|].
  assert (Hm : name ∈ filter (λ x, x ∉ names) (n :: include)).
  { by apply list_elem_of_filter. }
  destruct (filter (λ x, x ∉ names) (n :: include)) as [|m ms] eqn:E.
  - by apply elem_of_nil in Hm.
  - by exists (m :: ms).
Qed.

Lemma py_repr_list_mentions_plain (l : list string) (name : string) :
  name ∈ l → plain_text name = true →
  mentions (py_repr_list l) name = true.
Proof.
  intros Hin Hplain. unfold py_repr_list.
  apply (mentions_app_r "["), mentions_app_l.
  apply (mentions_concat _ _ _ (py_repr_str name)).
  - by apply list_elem_of_fmap_2.
  - rewrite py_repr_str_plain by done.
    apply (mentions_app_r "'"), mentions_self_app.
Qed.

(** C3, as amended: [get_channel_data] with a label that is not in the
    recording fails with a [ValueError].  The message quotes the
    offending label as it was given and ends with Python's rendering of
    the list of the recording's channel names; so it lists every valid
    label in its quoted form, and as it stands when the label is plain
    text (no control character, apostrophe or backslash).  Labels are
    taken to be ASCII text, on which the rendering is modelled. *)
Theorem unknown_channel_is_rejected ordered (conv : EDFConverter)
    (name : string) :
  name ∉ ch_names (raw conv) →
  Forall (λ valid, ascii_text valid = true) (ch_names (raw conv)) →
  let msg := "Channel '" +:+ name +:+ "' not found. Available channels: "
             +:+ py_repr_list (ch_names (raw conv)) in
  get_channel_data ordered conv name = Raise (Exn ValueError msg)
  ∧ mentions msg name = true
  ∧ Forall (λ valid,
              mentions msg (py_repr_str valid) = true
              ∧ (plain_text valid = true → mentions msg valid = true))
      (ch_names (raw conv)).
Proof.
  intros Hnot _ msg. split_and!.
  - unfold get_channel_data. by rewrite bool_decide_eq_true_2.
  - apply (mentions_app_r "Channel '"), mentions_self_app.
  - apply Forall_forall. intros valid Hvalid. split.
    + apply (mentions_app_r "Channel '"), mentions_app_r, mentions_app_r.
      by apply py_repr_list_mentions.
    + intros Hplain.
      apply (mentions_app_r "Channel '"), mentions_app_r, mentions_app_r.
      by apply py_repr_list_mentions_plain.
Qed.

Lemma unknown_channel_is_rejected_witness :
  ("ZZZ" ∉ ch_names (raw conv_AB))
  ∧ Forall (λ valid, ascii_text valid = true) (ch_names (raw conv_AB))
  ∧ get_channel_data false conv_AB "ZZZ"
    = Raise (Exn ValueError
               "Channel 'ZZZ' not found. Available channels: ['A', 'B']").
Proof.
  assert (H1 : "ZZZ" ∉ ch_names (raw conv_AB)) by compute_done.
  assert (H2 : Forall (λ valid, ascii_text valid = true)
                 (ch_names (raw conv_AB))) by compute_done.
  split; [exact H1|]. split; [exact H2|].
  exact (proj1 (unknown_channel_is_rejected false conv_AB "ZZZ" H1 H2)).
Defined.

(** C3 as stated fails on the exporters.  On the recording with channels
    A and B, exporting the channels A and ZZZ to CSV fails with a message
    that names ZZZ but lists no valid label when the picker keeps the
    caller's order, and does not fail at all when the picker treats the
    list as a set: the file is then written with the column header ZZZ
    and a single data column. *)
Lemma export_unknown_channel_counterexample :
  (to_csv true "out.csv" (Some ["A"; "ZZZ"]) true st_AB).1
  = Raise (Exn ValueError
             ("Missing channels from ch_names required by include:"
              +:+ String "010"%char "['ZZZ']"))
  ∧ names_and_lists (to_csv true "out.csv" (Some ["A"; "ZZZ"]) true st_AB).1
      "ZZZ" ["A"; "B"] = false
  ∧ (to_csv false "out.csv" (Some ["A"; "ZZZ"]) true st_AB).1 = Ok ()
  ∧ files (world (to_csv false "out.csv" (Some ["A"; "ZZZ"]) true st_AB).2)
      !! "out.csv"
    = Some (CsvFile [[CellStr "Time"; CellStr "A"; CellStr "ZZZ"];
                     [CellFloat (0 # 4); CellFloat 1];
                     [CellFloat (1 # 4); CellFloat 2];
                     [CellFloat (2 # 4); CellFloat 3];
                     [CellFloat (3 # 4); CellFloat 4]])
  ∧ names_and_lists (to_numpy false "out.npz" (Some ["A"; "ZZZ"]) st_AB).1
      "ZZZ" ["A"; "B"] = false
  ∧ names_and_lists (to_json false "out.json" (Some ["A"; "ZZZ"]) true st_AB).1
      "ZZZ" ["A"; "B"] = false.
Proof. repeat split; vm_compute; reflexivity. Qed.

(** ** What [get_data] returns *)

Lemma data_by_names (r : Raw) :
  raw_ok r = true → _data r = channel_samples r <$> ch_names r.
Proof.
  intros Hok. pose proof (raw_ok_inv _ Hok) as (_ & _ & Hlen & _).
  apply list_eq. intros k. rewrite list_lookup_fmap.
  destruct (ch_names r !! k) as [name|] eqn:Hk; simpl.
  - by apply channel_samples_lookup.
  - apply lookup_ge_None. rewrite Hlen. by apply lookup_ge_None.
Qed.

Lemma get_data_all ordered conv :
  raw_ok (raw conv) = true →
  get_data ordered conv None = Ok (_data (raw conv), times (raw conv)).
Proof. intros Hok. unfold get_data. simpl. by rewrite raw_get_data_all. Qed.

Lemma picked_rows (r : Raw) (channels : list string) :
  length (_data r) = length (ch_names r) →
  Forall (λ name, name ∈ ch_names r) channels →
  length (omap (index_of (ch_names r)) channels) = length channels
  ∧ mapM (λ k, _data r !! k) (omap (index_of (ch_names r)) channels)
    = Some (channel_samples r <$> channels).
Proof.
  intros Hlen Hall. rewrite mapM_Some.
  induction Hall as [|name channels Hin _ [IHlen IH]]; [by split|].
  destruct (index_of_elem_of _ _ Hin) as (i & Hi & Hlook).
  destruct (lookup_lt_is_Some_2 (_data r) i) as [row Hrow].
  { rewrite Hlen. by eapply lookup_lt_Some. }
  cbn [omap list_omap]. rewrite Hi. split; [simpl; by rewrite IHlen|].
  rewrite fmap_cons. constructor; [|exact IH].
  unfold channel_samples. rewrite Hi. simpl. by rewrite Hrow.
Qed.

Lemma pick_channels_valid names channels :
  NoDup names → channels ≠ [] → Forall (λ name, name ∈ names) channels →
  pick_channels true names channels = Ok (omap (index_of names) channels).
Proof.
  intros Hnd Hne Hall. unfold pick_channels.
  rewrite bool_decide_eq_true_2 by done. simpl.
  destruct channels as [|n channels]; [done|].
  destruct (filter (λ name, name ∉ names) (n :: channels)) as [|m ms] eqn:E;
    [done|].
  assert (Hm : m ∈ filter (λ name, name ∉ names) (n :: channels)).
  { rewrite E. apply list_elem_of_here. }
  apply list_elem_of_filter in Hm as [Hnot Hin].
  rewrite Forall_forall in Hall. destruct Hnot. by apply Hall.
Qed.

Lemma get_data_filtered conv channels :
  raw_ok (raw conv) = true → channels ≠ [] →
  Forall (λ name, name ∈ ch_names (raw conv)) channels →
  get_data true conv (Some channels)
  = Ok (channel_samples (raw conv) <$> channels, times (raw conv)).
Proof.
  intros (_ & Hnd & Hlen & _)%raw_ok_inv Hne Hall. unfold get_data.
  replace (truthy (Some channels)) with true by (by destruct channels).
  simpl. rewrite pick_channels_valid by done. simpl.
  destruct (picked_rows (raw conv) channels Hlen Hall) as [Hl Hrows].
  unfold raw_get_data. simpl.
  destruct (omap (index_of (ch_names (raw conv))) channels) eqn:E.
  { destruct channels; [done|discriminate]. }
  rewrite Hrows. done.
Qed.

Lemma get_data_true_inv conv channels d ts :
  raw_ok (raw conv) = true → truthy channels = true →
  get_data true conv channels = Ok (d, ts) →
  ∃ l, channels = Some l ∧ l ≠ []
       ∧ Forall (λ name, name ∈ ch_names (raw conv)) l.
Proof.
  intros (_ & Hnd & _)%raw_ok_inv Ht Hget.
  destruct channels as [[|c cs]|]; try done.
  exists (c :: cs). split_and!; [done..|].
  apply Forall_forall. intros name Hin.
  destruct (decide (name ∈ ch_names (raw conv))) as [|Hnot]; [done|].
  destruct (pick_channels_missing _ _ _ Hnd Hin Hnot) as (missing & _ & Hpick).
  unfold get_data, truthy, default in Hget. cbn [from_option id] in Hget.
  rewrite Hpick in Hget. done.
Qed.

Lemma get_data_unfiltered ordered conv channels :
  raw_ok (raw conv) = true → truthy channels = false →
  get_data ordered conv channels = Ok (_data (raw conv), times (raw conv)).
Proof.
  intros Hok Ht. unfold get_data. rewrite Ht. simpl.
  by rewrite raw_get_data_all.
Qed.

(** When no filter is given, or the picker keeps the caller's order, the
    rows [get_data] returns are the samples of the names the exporters
    write, in that order. *)
Lemma get_data_labelled ordered conv channels d ts :
  raw_ok (raw conv) = true →
  get_data ordered conv channels = Ok (d, ts) →
  truthy channels = false ∨ ordered = true →
  d = channel_samples (raw conv) <$> export_names conv channels.
Proof.
  intros Hok Hget Hcase.
  destruct (truthy channels) eqn:Ht.
  - destruct Hcase as [Hf | ->]; [congruence|].
    destruct (get_data_true_inv _ _ _ _ Hok Ht Hget) as (l & -> & Hne & Hall).
    rewrite get_data_filtered in Hget by done. injection Hget as <- _.
    unfold export_names. by rewrite Ht.
  - rewrite get_data_unfiltered in Hget by done. injection Hget as <- _.
    unfold export_names. rewrite Ht. by apply data_by_names.
Qed.

(** ** C6: the cells of the CSV export *)

Lemma to_csv_ok_inv ordered p channels t st st' :
  to_csv ordered p channels t st = (Ok (), st') →
  ∃ d ts, get_data ordered (self st) channels = Ok (d, ts)
          ∧ writable (world st) p = true.
Proof.
  unfold to_csv, mbind, M_bind, get_self, lift.
  destruct (get_data ordered (self st) channels) as [[d ts]|e]; [|done].
  destruct (csv_rows_from t d ts 0) as [rows err].
  unfold write_file. destruct (writable (world st) p); [|done].
  intros _. by exists d, ts.
Qed.

Lemma csv_row_numeric t d i tm : numeric_row (csv_row t d i tm).
Proof.
  unfold numeric_row, csv_row. apply Forall_app. split.
  - destruct t; simpl; [|done]. repeat constructor. by eexists.
  - apply Forall_fmap, Forall_true. intros x. by eexists.
Qed.

Lemma csv_row_length t d i tm :
  length (csv_row t d i tm) = ((if t then 1 else 0) + length d)%nat.
Proof.
  unfold csv_row. rewrite length_app, !length_fmap. by destruct t.
Qed.

Lemma to_csv_content ordered p channels t st st' :
  raw_ok (raw (self st)) = true →
  to_csv ordered p channels t st = (Ok (), st') →
  ∃ d rows,
    get_data ordered (self st) channels = Ok (d, times (raw (self st)))
    ∧ files (world st') !! p
      = Some (CsvFile (csv_header t (export_names (self st) channels) :: rows))
    ∧ length rows = n_times (raw (self st))
    ∧ Forall (λ row, length row = ((if t then 1 else 0) + length d)%nat
                     ∧ numeric_row row) rows
    ∧ ∀ i, (i < n_times (raw (self st)))%nat →
        rows !! i
        = Some (csv_row t d i
                  (inject_Z (Z.of_nat i) / sfreq (raw (self st)))%Q).
Proof.
  intros Hok Hrun.
  destruct (to_csv_ok_inv _ _ _ _ _ _ Hrun) as (d & ts & Hget & Hw).
  destruct (get_data_shape _ _ _ _ _ Hok Hget) as (Hlen & Hrect & _).
  pose proof (get_data_inv _ _ _ _ _ Hget) as [-> _].
  rewrite (to_csv_run ordered p channels t st d _ Hget) in Hrun; [|..|done].
  2:{ eapply Forall_impl; [exact Hrect|]. simpl. intros; lia. }
  injection Hrun as <-. eexists d, _. split_and!; [done|..].
  - simpl. apply lookup_insert_eq.
  - by rewrite length_imap.
  - apply Forall_forall. intros r' Hr'.
    apply list_elem_of_lookup in Hr' as [i Hi].
    rewrite list_lookup_imap in Hi.
    destruct (times (raw (self st)) !! i) as [tm|]; simplify_eq/=.
    split; [apply csv_row_length|apply csv_row_numeric].
  - intros i Hi. by rewrite list_lookup_imap, times_lookup.
Qed.

(** C6, as amended: a CSV export writes one data row per position of the
    time axis, and every cell of a data row is a number: the timestamp
    (if asked for), then sample [i] of each row of the matrix [get_data]
    returned.  That matrix being rectangular, no channel is shorter than
    the time axis and no empty or missing marker is written.  When no
    filter is given, or the picker keeps the caller's order, the rows of
    the matrix are the samples of the labels in the header, in the
    header's order, so that every data row has one cell per header column
    and the cell under a label is that channel's sample. *)
Theorem csv_rows_are_numeric ordered p channels t st st' :
  raw_ok (raw (self st)) = true →
  to_csv ordered p channels t st = (Ok (), st') →
  ∃ d rows,
    get_data ordered (self st) channels = Ok (d, times (raw (self st)))
    ∧ files (world st') !! p
      = Some (CsvFile (csv_header t (export_names (self st) channels) :: rows))
    ∧ length rows = n_times (raw (self st))
    ∧ Forall (λ row, length row = ((if t then 1 else 0) + length d)%nat
                     ∧ numeric_row row) rows
    ∧ (∀ i, (i < n_times (raw (self st)))%nat →
         rows !! i
         = Some (csv_row t d i
                   (inject_Z (Z.of_nat i) / sfreq (raw (self st)))%Q))
    ∧ (truthy channels = false ∨ ordered = true →
         d = channel_samples (raw (self st))
               <$> export_names (self st) channels
         ∧ Forall (λ row,
                     length row
                     = length (csv_header t (export_names (self st) channels)))
             rows).
Proof.
  intros Hok Hrun.
  destruct (to_csv_content _ _ _ _ _ _ Hok Hrun)
    as (d & rows & Hget & Hfile & Hlen & Hrows & Hcells).
  exists d, rows. split_and!; try done.
  intros Hcase. pose proof (get_data_labelled _ _ _ _ _ Hok Hget Hcase) as Hd.
  split; [done|]. eapply Forall_impl; [exact Hrows|]. simpl.
  intros row' [-> _]. unfold csv_header.
  rewrite Hd, length_app, !length_fmap. by destruct t.
Qed.

Lemma csv_rows_are_numeric_witness :
  raw_ok (raw (self st_AB)) = true
  ∧ (to_csv true "out.csv" (Some ["B"]) true st_AB).1 = Ok ()
  ∧ ∃ d rows,
      get_data true (self st_AB) (Some ["B"]) = Ok (d, times (raw (self st_AB)))
      ∧ length rows = 4%nat
      ∧ Forall (λ row, length row = (1 + length d)%nat ∧ numeric_row row) rows.
Proof.
  split; [reflexivity|]. split; [reflexivity|].
  destruct (csv_rows_are_numeric true "out.csv" (Some ["B"]) true st_AB
              (to_csv true "out.csv" (Some ["B"]) true st_AB).2
              eq_refl eq_refl) as (d & rows & Hget & _ & Hlen & Hrows & _).
  exists d, rows. split_and!; assumption.
Defined.

(** C6 as stated fails.  In the file of the spec's example channel B has
    2 * 3 = 6 samples of its own and the time axis 12 points, so the claim
    wants an empty marker in B's column at positions 6 to 11.  The rows
    written for these positions hold a number there, and no successful
    export of any recording writes a text cell into a data row. *)
Lemma csv_missing_marker_counterexample :
  (to_csv true "out.csv" None true st_example).1 = Ok ()
  ∧ (∃ rows,
       files (world (to_csv true "out.csv" None true st_example).2) !! "out.csv"
       = Some (CsvFile rows)
       ∧ rows !! 0%nat = Some [CellStr "Time"; CellStr "A"; CellStr "B"]
       ∧ length rows = (1 + 12)%nat
       ∧ Forall (λ i : nat,
                   ∃ x, rows !! (1 + i)%nat ≫= (.!! 2%nat) = Some (CellFloat x))
           (seq (2 * 3) (12 - 2 * 3)))
  ∧ ¬ ∃ ordered p channels t st st' header rows row s,
        raw_ok (raw (self st)) = true
        ∧ to_csv ordered p channels t st = (Ok (), st')
        ∧ files (world st') !! p = Some (CsvFile (header :: rows))
        ∧ row ∈ rows ∧ CellStr s ∈ row.
Proof.
  split; [reflexivity|]. split.
  { eexists. split; [vm_compute; reflexivity|]. split; [reflexivity|].
    split; [reflexivity|].
    repeat (constructor; [eexists; reflexivity|]). constructor. }
  intros (ordered & p & channels & t & st & st' & header & rows & r' & s
          & Hok & Hrun & Hfile & Hrow & Hcell).
  destruct (to_csv_content _ _ _ _ _ _ Hok Hrun)
    as (d & rows' & _ & Hfile' & _ & Hrows & _).
  rewrite Hfile in Hfile'. injection Hfile' as _ <-.
  rewrite Forall_forall in Hrows. destruct (Hrows r' Hrow) as [_ Hnum].
  unfold numeric_row in Hnum. rewrite Forall_forall in Hnum.
  destruct (Hnum _ Hcell) as [x Hx]. discriminate.
Qed.

(** ** C7: the contents of the NumPy archive *)

Lemma to_numpy_ok_inv ordered p channels st st' :
  to_numpy ordered p channels st = (Ok (), st') →
  ∃ d ts, get_data ordered (self st) channels = Ok (d, ts)
          ∧ writable (world st) (npz_path p) = true.
Proof.
  unfold to_numpy, mbind, M_bind, get_self, lift.
  destruct (get_data ordered (self st) channels) as [[d ts]|e]; [|done].
  unfold write_file. destruct (writable (world st) (npz_path p)); [|done].
  intros _. by exists d, ts.
Qed.

Lemma to_numpy_content ordered p channels st st' :
  raw_ok (raw (self st)) = true →
  to_numpy ordered p channels st = (Ok (), st') →
  ∃ d,
    get_data ordered (self st) channels = Ok (d, times (raw (self st)))
    ∧ files (world st') !! npz_path p
      = Some (NpzFile
                [("data", NpzMatrix d);
                 ("times", NpzVector (times (raw (self st))));
                 ("channel_names", NpzStrings (export_names (self st) channels));
                 ("sampling_rate", NpzScalar (sfreq (raw (self st))))])
    ∧ Forall (λ row, length row = length (times (raw (self st)))) d.
Proof.
  intros Hok Hrun.
  destruct (to_numpy_ok_inv _ _ _ _ _ Hrun) as (d & ts & Hget & Hw).
  destruct (get_data_shape _ _ _ _ _ Hok Hget) as (_ & Hrect & _).
  pose proof (get_data_inv _ _ _ _ _ Hget) as [-> _].
  rewrite (to_numpy_run ordered p channels st d _ Hget Hw) in Hrun.
  injection Hrun as <-. exists d. split_and!; [done| |done].
  simpl. apply lookup_insert_eq.
Qed.

(** C7, as amended: the archive export writes four entries, in this
    order: [data], the matrix [get_data] returned, rectangular, every row
    of it [len(times)] samples long; [times]; [channel_names], the
    caller's list of labels, or the recording's channel names when no
    filter is given; and the scalar [sampling_rate].  There is no array
    named after a channel.  When no filter is given, or the picker keeps
    the caller's order, [data] has one row per entry of [channel_names],
    and row [k] holds the samples of the channel that entry [k] names. *)
Theorem to_numpy_writes_stacked_matrix ordered p channels st st' :
  raw_ok (raw (self st)) = true →
  to_numpy ordered p channels st = (Ok (), st') →
  ∃ d,
    get_data ordered (self st) channels = Ok (d, times (raw (self st)))
    ∧ files (world st') !! npz_path p
      = Some (NpzFile
                [("data", NpzMatrix d);
                 ("times", NpzVector (times (raw (self st))));
                 ("channel_names", NpzStrings (export_names (self st) channels));
                 ("sampling_rate", NpzScalar (sfreq (raw (self st))))])
    ∧ Forall (λ row, length row = length (times (raw (self st)))) d
    ∧ (truthy channels = false ∨ ordered = true →
         d = channel_samples (raw (self st))
               <$> export_names (self st) channels).
Proof.
  intros Hok Hrun.
  destruct (to_numpy_content _ _ _ _ _ Hok Hrun) as (d & Hget & Hfile & Hrect).
  exists d. split_and!; try done.
  by apply (get_data_labelled _ _ _ _ _ Hok Hget).
Qed.

Lemma to_numpy_writes_stacked_matrix_witness :
  raw_ok (raw (self st_AB)) = true
  ∧ (to_numpy false "out" None st_AB).1 = Ok ()
  ∧ ∃ d, get_data false (self st_AB) None = Ok (d, times (raw (self st_AB)))
         ∧ Forall (λ row, length row = length (times (raw (self st_AB)))) d.
Proof.
  split; [reflexivity|]. split; [reflexivity|].
  destruct (to_numpy_writes_stacked_matrix false "out" None st_AB
              (to_numpy false "out" None st_AB).2 eq_refl eq_refl)
    as (d & Hget & _ & Hrect & _).
  exists d. split; assumption.
Defined.

(** C7 as stated fails.  For the recording of the spec's example,
    exported whole, the archive has no array named A or B: the samples of
    both channels are stacked in the one matrix [data] of 2 rows and 12
    columns, labelled by the entry [channel_names]. *)
Lemma to_numpy_per_channel_arrays_counterexample :
  (to_numpy true "out.npz" None st_example).1 = Ok ()
  ∧ npz_names (files (world (to_numpy true "out.npz" None st_example).2)
               !! "out.npz")
    = ["data"; "times"; "channel_names"; "sampling_rate"]
  ∧ ("A" ∉ ["data"; "times"; "channel_names"; "sampling_rate"])
  ∧ ("B" ∉ ["data"; "times"; "channel_names"; "sampling_rate"])
  ∧ ∃ entries d,
      files (world (to_numpy true "out.npz" None st_example).2) !! "out.npz"
      = Some (NpzFile entries)
      ∧ entries !! 0%nat = Some ("data", NpzMatrix d)
      ∧ entries !! 2%nat = Some ("channel_names", NpzStrings ["A"; "B"])
      ∧ length <$> d = [12; 12]%nat.
Proof.
  split; [reflexivity|]. split; [vm_compute; reflexivity|].
  split; [compute_done|]. split; [compute_done|].
  eexists _, _. split; [vm_compute; reflexivity|].
  split; [reflexivity|]. split; reflexivity.
Qed.

(** ** C5: exporting a chosen list of channels *)

(** With the picker keeping the caller's order (mne from 1.7), an export
    of a non-empty list of valid labels writes the channels in the order
    of that list, and what it writes under a label are the samples of the
    channel of that name: in CSV the header cells and the cells of every
    row follow the list; in JSON the entry of each requested label holds
    its samples, the keys following the list when it has no repetition;
    in the archive [channel_names] is the list and the rows of [data]
    follow it. *)
Theorem filtered_export_keeps_caller_order (channels : list string)
    (p : string) (st : State) :
  raw_ok (raw (self st)) = true →
  channels ≠ [] →
  Forall (λ name, name ∈ ch_names (raw (self st))) channels →
  let samples := channel_samples (raw (self st)) in
  let ts := times (raw (self st)) in
  get_data true (self st) (Some channels) = Ok (samples <$> channels, ts)
  ∧ (∀ t, writable (world st) p = true →
       to_csv true p (Some channels) t st
       = (Ok (),
          wrote st p
            (CsvFile
               (((if t then [CellStr "Time"] else []) ++ (CellStr <$> channels))
                :: imap (λ i tm,
                     time_cell t tm
                     ++ ((λ name, CellFloat (nth i (samples name) 0%Q))
                           <$> channels)) ts))
            ("CSV file saved to: " +:+ p)))
  ∧ (∀ m, writable (world st) p = true →
       (m = true → (0 < n_times (raw (self st)))%nat) →
       ∃ metadata chans,
         to_json true p (Some channels) m st
         = (Ok (),
            wrote st p
              (JsonFile
                 (JDict (metadata
                         ++ [("data", JDict [("times", JList (JFloat <$> ts));
                                             ("channels", JDict chans)])])))
              ("JSON file saved to: " +:+ p))
         ∧ (∀ name, name ∈ channels →
              dict_get chans name = Some (JList (JFloat <$> samples name)))
         ∧ (NoDup channels → chans.*1 = channels))
  ∧ (writable (world st) (npz_path p) = true →
       to_numpy true p (Some channels) st
       = (Ok (),
          wrote st (npz_path p)
            (NpzFile [("data", NpzMatrix (samples <$> channels));
                      ("times", NpzVector ts);
                      ("channel_names", NpzStrings channels);
                      ("sampling_rate", NpzScalar (sfreq (raw (self st))))])
            ("NumPy file saved to: " +:+ p))).
Proof.
  intros Hok Hne Hall samples ts.
  pose proof (get_data_filtered (self st) channels Hok Hne Hall) as Hget.
  assert (Hnames : export_names (self st) (Some channels) = channels).
  { unfold export_names. by destruct channels. }
  split_and!.
  - exact Hget.
  - intros t Hw. rewrite (to_csv_run true p (Some channels) t st _ _ Hget); [|..|done].
    2:{ apply Forall_fmap, Forall_forall. intros name Hin. simpl.
        rewrite Forall_forall in Hall.
        rewrite channel_samples_length by auto. by rewrite length_times. }
    rewrite Hnames. unfold csv_header. do 4 f_equal.
    apply imap_ext. intros i tm _. simpl. unfold csv_row. f_equal.
    rewrite <- !list_fmap_compose. done.
  - intros m Hw Hm.
    assert (Hch : json_channels_from (samples <$> channels)
                    (export_names (self st) (Some channels)) 0 []
                  = Ok (json_fill samples channels [])).
    { rewrite Hnames. apply json_channels_from_ok. intros k name Hk.
      simpl. by rewrite list_lookup_fmap, Hk. }
    destruct m.
    + destruct (get_info_ok (self st)) as (info & Hinfo); [by apply Hm|].
      exists [("metadata", info_json info)], (json_fill samples channels []).
      split_and!.
      * by apply (to_json_run true p (Some channels) true st _ _ _ info Hget).
      * intros name Hin. by apply json_fill_get.
      * apply json_fill_keys.
    + exists [], (json_fill samples channels []). split_and!.
      * by apply (to_json_run true p (Some channels) false st _ _ _
                    {| filename := ""; n_channels := 0; channel_names := [];
                       sampling_rate := 0; duration_seconds := 0;
                       n_samples := 0; measurement_date := None |} Hget).
      * intros name Hin. by apply json_fill_get.
      * apply json_fill_keys.
  - intros Hw.
    rewrite (to_numpy_run true p (Some channels) st _ _ Hget Hw).
    by rewrite Hnames.
Qed.

Lemma filtered_export_keeps_caller_order_witness :
  raw_ok (raw (self st_AB)) = true
  ∧ ["B"; "A"] ≠ []
  ∧ Forall (λ name, name ∈ ch_names (raw (self st_AB))) ["B"; "A"]
  ∧ get_data true (self st_AB) (Some ["B"; "A"])
    = Ok ([[10; 20; 30; 40]%Q; [1; 2; 3; 4]%Q], times raw_AB).
Proof.
  assert (H1 : ["B"; "A"] ≠ []) by discriminate.
  assert (H2 : Forall (λ name, name ∈ ch_names (raw (self st_AB))) ["B"; "A"])
    by compute_done.
  split; [reflexivity|]. split; [exact H1|]. split; [exact H2|].
  exact (proj1 (filtered_export_keeps_caller_order ["B"; "A"] "out.csv" st_AB
                  eq_refl H1 H2)).
Defined.

(** C5: evaluation at the failing input.  The module calls
    [mne.pick_channels] without saying how to order its result; with the
    picker of mne up to 1.6, which uses the list as a set, [get_data]
    returns the rows in the recording's order while the exporters write
    the labels in the caller's order.  On the recording with the channels
    A = 1, 2, 3, 4 and B = 10, 20, 30, 40, an export of the channels B, A
    puts the label B on the samples of A and the label A on the samples
    of B, in the CSV columns, in the JSON entries and in the rows of the
    archive. *)
Theorem filtered_export_swaps_labels :
  channel_samples raw_AB "A" = [1; 2; 3; 4]%Q
  ∧ channel_samples raw_AB "B" = [10; 20; 30; 40]%Q
  ∧ get_data false conv_AB (Some ["B"; "A"])
    = Ok ([[1; 2; 3; 4]%Q; [10; 20; 30; 40]%Q], times raw_AB)
  ∧ export_names conv_AB (Some ["B"; "A"]) = ["B"; "A"]
  ∧ to_csv false "out.csv" (Some ["B"; "A"]) true st_AB
    = (Ok (),
       wrote st_AB "out.csv"
         (CsvFile [[CellStr "Time"; CellStr "B"; CellStr "A"];
                   [CellFloat (0 # 4); CellFloat 1; CellFloat 10];
                   [CellFloat (1 # 4); CellFloat 2; CellFloat 20];
                   [CellFloat (2 # 4); CellFloat 3; CellFloat 30];
                   [CellFloat (3 # 4); CellFloat 4; CellFloat 40]])
         "CSV file saved to: out.csv")
  ∧ to_json false "out.json" (Some ["B"; "A"]) false st_AB
    = (Ok (),
       wrote st_AB "out.json"
         (JsonFile
            (JDict
               [("data",
                 JDict [("times", JList (JFloat <$> times raw_AB));
                        ("channels",
                         JDict [("B", JList (JFloat <$> [1; 2; 3; 4]%Q));
                                ("A", JList (JFloat <$> [10; 20; 30; 40]%Q))])])]))
         "JSON file saved to: out.json")
  ∧ to_numpy false "out.npz" (Some ["B"; "A"]) st_AB
    = (Ok (),
       wrote st_AB "out.npz"
         (NpzFile [("data", NpzMatrix [[1; 2; 3; 4]%Q; [10; 20; 30; 40]%Q]);
                   ("times", NpzVector (times raw_AB));
                   ("channel_names", NpzStrings ["B"; "A"]);
                   ("sampling_rate", NpzScalar 4)])
         "NumPy file saved to: out.npz").
Proof. repeat split; vm_compute; reflexivity. Qed.

(** * Further properties of the module *)

(** ** What an export does to the world *)

Lemma run_export_ok_shape ordered c s1 s2 s1' :
  self s1 = self s2 →
  writable (world s1) = writable (world s2) →
  run_export ordered c s1 = (Ok (), s1') →
  ∃ content,
    s1' = wrote s1 (export_dest c) content (export_line c)
    ∧ run_export ordered c s2
      = (Ok (), wrote s2 (export_dest c) content (export_line c))
    ∧ writable (world s1) (export_dest c) = true.
Proof.
  intros Hself Hw. destruct c as [p ch t|p ch m|p ch]; simpl.
  - unfold to_csv, mbind, M_bind, get_self, lift. rewrite <- Hself.
    destruct (get_data ordered (self s1) ch) as [[d ts]|e]; [|done].
    destruct (csv_rows_from t d ts 0) as [rows [e|]];
      unfold write_file; rewrite <- Hw;
      destruct (writable (world s1) p); try done.
    intros [= <-]. eexists. unfold print, wrote. simpl.
      rewrite <- Hw. split_and!; done.
  - unfold to_json, mbind, M_bind, get_self, lift. rewrite <- Hself.
    destruct (get_data ordered (self s1) ch) as [[d ts]|e]; [|done].
    destruct m.
    + destruct (get_info (self s1)) as [info|e]; [|done].
      unfold mret, M_ret.
      destruct (json_channels_from d _ 0 []) as [chans|e]; [|done].
      unfold write_file; rewrite <- Hw; simpl.
      destruct (writable (world s1) p); [|done].
      intros [= <-]. eexists. unfold print, wrote. simpl.
      rewrite <- Hw. split_and!; done.
    + unfold mret, M_ret.
      destruct (json_channels_from d _ 0 []) as [chans|e]; [|done].
      unfold write_file; rewrite <- Hw; simpl.
      destruct (writable (world s1) p); [|done].
      intros [= <-]. eexists. unfold print, wrote. simpl.
      rewrite <- Hw. split_and!; done.
  - unfold to_numpy, mbind, M_bind, get_self, lift. rewrite <- Hself.
    destruct (get_data ordered (self s1) ch) as [[d ts]|e]; [|done].
    unfold write_file; rewrite <- Hw.
    destruct (writable (world s1) (npz_path p)); [|done].
    intros [= <-]. eexists. unfold print, wrote. simpl.
      rewrite <- Hw. split_and!; done.
Qed.




(** X2: A successful export writes one file and prints one line: the
    destination was writable, it now holds a file, every other path holds
    what it held before, the converter is untouched, and the output grew
    by exactly the "saved to" line, which quotes the path as the caller
    gave it. *)
Theorem successful_export_writes_one_file ordered c st st' :
  run_export ordered c st = (Ok (), st') →
  writable (world st) (export_dest c) = true
  ∧ self st' = self st
  ∧ stdout (world st') = stdout (world st) ++ [export_line c]
  ∧ is_Some (files (world st') !! export_dest c)
  ∧ ∀ p', p' ≠ export_dest c →
          files (world st') !! p' = files (world st) !! p'.
Proof.
  intros Hrun.
  destruct (run_export_ok_shape ordered c st st st' eq_refl eq_refl Hrun)
    as (content & -> & _ & Hw).
  split_and!; try done.
  - simpl. rewrite lookup_insert_eq. by eexists.
  - intros p' Hne. simpl. by rewrite lookup_insert_ne.
Qed.

Lemma successful_export_writes_one_file_witness :
  run_export false (Call_to_numpy "out" (Some ["B"])) st_AB
  = (Ok (), (run_export false (Call_to_numpy "out" (Some ["B"])) st_AB).2)
  ∧ stdout (world (run_export false (Call_to_numpy "out" (Some ["B"])) st_AB).2)
    = ["NumPy file saved to: out"]
  ∧ is_Some (files (world (run_export false (Call_to_numpy "out" (Some ["B"]))
                             st_AB).2) !! "out.npz").
Proof.
  split; [reflexivity|].
  destruct (successful_export_writes_one_file false
              (Call_to_numpy "out" (Some ["B"])) st_AB
              (run_export false (Call_to_numpy "out" (Some ["B"])) st_AB).2
              eq_refl) as (_ & _ & Hout & Hfile & _).
  split; [exact Hout|exact Hfile].
Defined.

(** X3: What an export writes does not depend on what was exported before:
    if a call succeeds after any earlier exporter call, failed or not, it
    would have succeeded without it and written the same file.  Exporting
    again to a path therefore replaces the file by what a first export
    would have put there. *)
Theorem export_is_history_independent ordered c1 c2 st r1 st1 st2 :
  run_export ordered c1 st = (r1, st1) →
  run_export ordered c2 st1 = (Ok (), st2) →
  ∃ st2', run_export ordered c2 st = (Ok (), st2')
    ∧ files (world st2) !! export_dest c2
      = files (world st2') !! export_dest c2.
Proof.
  intros H1 H2.
  destruct (local_run_export ordered c1) as [Hframe _].
  specialize (Hframe st). rewrite H1 in Hframe.
  destruct Hframe as (Hs & Hw & _). simpl in Hs, Hw.
  destruct (run_export_ok_shape ordered c2 st1 st st2 (eq_sym Hs) (eq_sym Hw) H2)
    as (content & -> & Hrun & _).
  eexists. split; [exact Hrun|]. simpl. by rewrite !lookup_insert_eq.
Qed.

Lemma export_is_history_independent_witness :
  run_export true (Call_to_json "out" (Some ["ZZZ"]) true) st_AB
  = (Raise (Exn ValueError
              ("Missing channels from ch_names required by include:"
               +:+ String "010"%char "['ZZZ']")), st_AB)
  ∧ ∃ st2', run_export true (Call_to_csv "out" None false) st_AB = (Ok (), st2').
Proof.
  split; [reflexivity|].
  destruct (export_is_history_independent true
              (Call_to_json "out" (Some ["ZZZ"]) true)
              (Call_to_csv "out" None false) st_AB _ st_AB
              (run_export true (Call_to_csv "out" None false) st_AB).2
              eq_refl eq_refl) as (st2' & Hrun & _).
  by exists st2'.
Defined.

(** ** Reading one channel *)

Lemma set_like_filter_absent (name : string) (names : list string) (j : nat) :
  name ∉ names →
  filter (λ p : nat * string, p.2 ∈ [name])
    (imap (λ i n, ((j + i)%nat, n)) names) = [].
Proof.
  revert j. induction names as [|n names IH]; intros j Hnot; [done|].
  apply not_elem_of_cons in Hnot as [Hne Hnot].
  rewrite imap_cons, filter_cons_False.
  2:{ simpl. intros ->%list_elem_of_singleton. done. }
  rewrite <- (IH (S j) Hnot). f_equal. apply imap_ext.
  intros i x _. simpl. f_equal. lia.
Qed.

Lemma set_like_filter_single (name : string) (names : list string) (j k : nat) :
  NoDup names → names !! k = Some name →
  filter (λ p : nat * string, p.2 ∈ [name])
    (imap (λ i n, ((j + i)%nat, n)) names) = [((j + k)%nat, name)].
Proof.
  revert j k. induction names as [|n names IH]; intros j k Hnd Hk; [done|].
  apply NoDup_cons in Hnd as [Hnotin Hnd]. rewrite imap_cons.
  destruct k as [|k]; simplify_eq/=.
  - rewrite filter_cons_True by (simpl; apply list_elem_of_here).
    f_equal. rewrite <- (set_like_filter_absent name names (S j) Hnotin).
    f_equal. apply imap_ext. intros i x _. simpl. f_equal. lia.
  - rewrite filter_cons_False.
    2:{ simpl. intros ->%list_elem_of_singleton. apply Hnotin.
        by eapply list_elem_of_lookup_2. }
    replace (j + S k)%nat with (S j + k)%nat by lia.
    rewrite <- (IH (S j) k Hnd Hk). f_equal. apply imap_ext.
    intros i x _. simpl. f_equal. lia.
Qed.

Lemma pick_channels_single ordered names name k :
  NoDup names → names !! k = Some name →
  pick_channels ordered names [name] = Ok [k].
Proof.
  intros Hnd Hk. destruct ordered.
  - rewrite pick_channels_valid; [|done|done|].
    + cbn [omap list_omap]. by rewrite (index_of_NoDup _ _ _ Hnd Hk).
    + constructor; [|done]. by eapply list_elem_of_lookup_2.
  - unfold pick_channels. rewrite bool_decide_eq_true_2 by done. simpl.
    pose proof (set_like_filter_single name names 0 k Hnd Hk) as H.
    simpl in H. by rewrite H.
Qed.

Lemma get_channel_data_ok ordered conv name :
  raw_ok (raw conv) = true → name ∈ ch_names (raw conv) →
  get_channel_data ordered conv name
  = Ok (channel_samples (raw conv) name, times (raw conv)).
Proof.
  intros Hok Hin. pose proof (raw_ok_inv _ Hok) as (_ & Hnd & _ & _).
  apply list_elem_of_lookup in Hin as [k Hk].
  unfold get_channel_data. rewrite bool_decide_eq_false_2.
  2:{ intros Hnot. apply Hnot. by eapply list_elem_of_lookup_2. }
  unfold get_data. simpl.
  rewrite (pick_channels_single ordered _ _ _ Hnd Hk). simpl.
  unfold raw_get_data. simpl.
  rewrite (channel_samples_lookup _ _ _ Hok Hk). done.
Qed.

(** X4: [get_channel_data] with a label of the recording returns the stored
    row of that channel, as many samples as the time axis has points, and
    the time axis; it does so whichever way [mne.pick_channels] orders its
    result.  With any other label it raises and returns nothing. *)
Theorem get_channel_data_returns_the_channel ordered conv name :
  raw_ok (raw conv) = true →
  (name ∈ ch_names (raw conv) →
     get_channel_data ordered conv name
     = Ok (channel_samples (raw conv) name, times (raw conv))
     ∧ length (channel_samples (raw conv) name) = length (times (raw conv))
     ∧ ∃ k, ch_names (raw conv) !! k = Some name
            ∧ _data (raw conv) !! k = Some (channel_samples (raw conv) name))
  ∧ (name ∉ ch_names (raw conv) →
     ∃ e, get_channel_data ordered conv name = Raise e
          ∧ exc_type e = ValueError).
Proof.
  intros Hok. split.
  - intros Hin. split_and!.
    + by apply get_channel_data_ok.
    + rewrite length_times. by apply channel_samples_length.
    + apply list_elem_of_lookup in Hin as [k Hk]. exists k. split; [done|].
      by apply channel_samples_lookup.
  - intros Hnot. unfold get_channel_data.
    rewrite bool_decide_eq_true_2 by done. by eexists.
Qed.

Lemma get_channel_data_returns_the_channel_witness :
  raw_ok (raw conv_AB) = true
  ∧ get_channel_data false conv_AB "B"
    = Ok ([10; 20; 30; 40]%Q, times raw_AB).
Proof.
  split; [reflexivity|].
  assert (Hin : "B" ∈ ch_names (raw conv_AB)) by compute_done.
  exact (proj1 (proj1 (get_channel_data_returns_the_channel false conv_AB "B"
                         eq_refl) Hin)).
Defined.

(** ** Exporting every channel *)

(** X5: Without a channel filter, and with either picker, the CSV export is
    the stored matrix transposed: the header is [Time] (if asked for) and
    the recording's channel names; there is one row per sample; row [i]
    starts with the timestamp [i / sfreq] (if asked for) and then holds,
    under each channel name, sample [i] of that channel.  Header and rows
    all have the same number of cells. *)
Theorem to_csv_all_channels_is_transpose ordered p (t : bool) st :
  raw_ok (raw (self st)) = true →
  writable (world st) p = true →
  let r := raw (self st) in
  let header := (if t then [CellStr "Time"] else []) ++ (CellStr <$> ch_names r) in
  ∃ rows,
    to_csv ordered p None t st
    = (Ok (), wrote st p (CsvFile (header :: rows)) ("CSV file saved to: " +:+ p))
    ∧ length rows = n_times r
    ∧ Forall (λ row, length row = length header) rows
    ∧ ∀ i, (i < n_times r)%nat →
        rows !! i
        = Some (time_cell t (inject_Z (Z.of_nat i) / sfreq r)%Q
                ++ ((λ name, CellFloat (nth i (channel_samples r name) 0%Q))
                      <$> ch_names r)).
Proof.
  intros Hok Hw r header.
  pose proof (raw_ok_inv _ Hok) as (_ & _ & Hlen & Hrows).
  eexists. split_and!.
  - apply (to_csv_run ordered p None t st _ _ (get_data_all ordered _ Hok));
      [|done].
    eapply Forall_impl; [exact Hrows|]. simpl. intros row' ->.
    by rewrite length_times.
  - by rewrite length_imap, length_times.
  - apply Forall_forall. intros row' Hin.
    apply list_elem_of_lookup in Hin as [i Hi].
    rewrite list_lookup_imap in Hi.
    destruct (times (raw (self st)) !! i) as [tm|]; simplify_eq/=.
    rewrite csv_row_length. unfold header.
    rewrite length_app, length_fmap, Hlen. by destruct t.
  - intros i Hi. rewrite list_lookup_imap, times_lookup by done. simpl.
    unfold csv_row. do 2 f_equal.
    rewrite (data_by_names _ Hok) at 1. by rewrite <- !list_fmap_compose.
Qed.

Lemma to_csv_all_channels_is_transpose_witness :
  raw_ok (raw (self st_AB)) = true
  ∧ writable (world st_AB) "out.csv" = true
  ∧ ∃ rows,
      to_csv false "out.csv" None false st_AB
      = (Ok (), wrote st_AB "out.csv"
                  (CsvFile ([CellStr "A"; CellStr "B"] :: rows))
                  "CSV file saved to: out.csv")
      ∧ length rows = 4%nat.
Proof.
  split; [reflexivity|]. split; [reflexivity|].
  destruct (to_csv_all_channels_is_transpose false "out.csv" false st_AB
              eq_refl eq_refl) as (rows & Hrun & Hlen & _).
  exists rows. split; [exact Hrun|exact Hlen].
Defined.

Lemma dict_set_fresh d key v :
  key ∉ d.*1 → dict_set d key v = d ++ [(key, v)].
Proof.
  induction d as [|[k w] d IH]; [done|].
  rewrite fmap_cons. intros [Hne Hnot]%not_elem_of_cons. simpl in Hne.
  cbn [dict_set]. destruct (String.eqb k key) eqn:E.
  - apply String.eqb_eq in E. done.
  - simpl. by rewrite IH.
Qed.

Lemma json_fill_NoDup samples names :
  NoDup names →
  json_fill samples names []
  = (λ name, (name, JList (JFloat <$> samples name))) <$> names.
Proof.
  intros Hnd. pose proof (json_fill_keys samples names) as Hkeys.
  revert Hnd Hkeys. unfold json_fill.
  induction names as [|n names IH] using rev_ind; intros Hnd Hkeys; [done|].
  apply NoDup_app in Hnd as (Hnd & Hdisj & _).
  rewrite foldl_app, fmap_app. simpl.
  pose proof (json_fill_keys samples names Hnd) as Hk. unfold json_fill in Hk.
  rewrite dict_set_fresh.
  - rewrite IH; [done|done|]. intros _. exact Hk.
  - rewrite Hk. intros Hin. eapply Hdisj; [exact Hin|].
    apply list_elem_of_singleton. done.
Qed.

(** X6: Without a channel filter, and with either picker, the JSON export is
    an object whose [data] member holds the time axis under [times] and,
    under [channels], one entry per channel, in the recording's order,
    each channel name mapped to the list of that channel's samples.  The
    [metadata] member, the dictionary of [get_info], comes first when it
    is asked for and is absent otherwise. *)
Theorem to_json_all_channels ordered p (m : bool) st :
  raw_ok (raw (self st)) = true →
  writable (world st) p = true →
  (m = true → (0 < n_times (raw (self st)))%nat) →
  let r := raw (self st) in
  ∃ metadata,
    to_json ordered p None m st
    = (Ok (),
       wrote st p
         (JsonFile
            (JDict
               (metadata
                ++ [("data",
                     JDict [("times", JList (JFloat <$> times r));
                            ("channels",
                             JDict ((λ name,
                                      (name,
                                       JList (JFloat <$> channel_samples r name)))
                                    <$> ch_names r))])])))
         ("JSON file saved to: " +:+ p))
    ∧ (m = false → metadata = [])
    ∧ (m = true → ∃ info, get_info (self st) = Ok info
                          ∧ metadata = [("metadata", info_json info)]).
Proof.
  intros Hok Hw Hm r.
  pose proof (raw_ok_inv _ Hok) as (_ & Hnd & _ & _).
  assert (Hch : json_channels_from (_data r) (export_names (self st) None) 0 []
                = Ok ((λ name, (name, JList (JFloat <$> channel_samples r name)))
                      <$> ch_names r)).
  { rewrite <- json_fill_NoDup by done. apply json_channels_from_ok.
    intros k name Hk. by apply channel_samples_lookup. }
  destruct m.
  - destruct (get_info_ok (self st)) as (info & Hinfo); [by apply Hm|].
    exists [("metadata", info_json info)]. split_and!; [|done|by eauto].
    by apply (to_json_run ordered p None true st _ _ _ info
                (get_data_all ordered _ Hok)).
  - exists []. split_and!; [|done|done].
    by apply (to_json_run ordered p None false st _ _ _
                {| filename := ""; n_channels := 0; channel_names := [];
                   sampling_rate := 0; duration_seconds := 0;
                   n_samples := 0; measurement_date := None |}
                (get_data_all ordered _ Hok)).
Qed.

Lemma to_json_all_channels_witness :
  raw_ok (raw (self st_AB)) = true
  ∧ writable (world st_AB) "out.json" = true
  ∧ (true = true → (0 < n_times (raw (self st_AB)))%nat)
  ∧ (to_json true "out.json" None true st_AB).1 = Ok ().
Proof.
  assert (H : true = true → (0 < n_times (raw (self st_AB)))%nat).
  { intros _. unfold st_AB, conv_AB, raw_AB. simpl. lia. }
  split; [reflexivity|]. split; [reflexivity|]. split; [exact H|].
  destruct (to_json_all_channels true "out.json" true st_AB eq_refl eq_refl H)
    as (metadata & Hrun & _).
  by rewrite Hrun.
Defined.

(** ** C10: the empty filter *)

Lemma to_csv_unfiltered ordered p channels (t : bool) st :
  truthy channels = false →
  raw_ok (raw (self st)) = true →
  writable (world st) p = true →
  ∃ rows,
    to_csv ordered p channels t st
    = (Ok (),
       wrote st p (CsvFile (csv_header t (ch_names (raw (self st))) :: rows))
         ("CSV file saved to: " +:+ p))
    ∧ length rows = n_times (raw (self st))
    ∧ ∀ i, (i < n_times (raw (self st)))%nat →
        rows !! i
        = Some (time_cell t (inject_Z (Z.of_nat i) / sfreq (raw (self st)))%Q
                ++ ((λ name,
                      CellFloat (nth i (channel_samples (raw (self st)) name) 0%Q))
                      <$> ch_names (raw (self st)))).
Proof.
  intros Ht Hok Hw.
  pose proof (raw_ok_inv _ Hok) as (_ & _ & Hlen & Hrows).
  assert (Hnames : export_names (self st) channels = ch_names (raw (self st))).
  { unfold export_names. by rewrite Ht. }
  eexists. split_and!.
  - rewrite <- Hnames.
    apply (to_csv_run ordered p channels t st _ _
             (get_data_unfiltered ordered _ _ Hok Ht)); [|done].
    eapply Forall_impl; [exact Hrows|]. simpl. intros row' ->.
    by rewrite length_times.
  - by rewrite length_imap, length_times.
  - intros i Hi. rewrite list_lookup_imap, times_lookup by done. simpl.
    unfold csv_row. do 2 f_equal.
    rewrite (data_by_names _ Hok) at 1. by rewrite <- !list_fmap_compose.
Qed.

Lemma to_json_unfiltered ordered p channels (m : bool) st :
  truthy channels = false →
  raw_ok (raw (self st)) = true →
  writable (world st) p = true →
  (m = true → (0 < n_times (raw (self st)))%nat) →
  ∃ metadata,
    to_json ordered p channels m st
    = (Ok (),
       wrote st p
         (JsonFile
            (JDict
               (metadata
                ++ [("data",
                     JDict [("times", JList (JFloat <$> times (raw (self st))));
                            ("channels",
                             JDict ((λ name,
                                      (name,
                                       JList (JFloat
                                                <$> channel_samples
                                                      (raw (self st)) name)))
                                    <$> ch_names (raw (self st))))])])))
         ("JSON file saved to: " +:+ p))
    ∧ (m = false → metadata = [])
    ∧ (m = true → ∃ info, get_info (self st) = Ok info
                          ∧ metadata = [("metadata", info_json info)]).
Proof.
  intros Ht Hok Hw Hm.
  pose proof (raw_ok_inv _ Hok) as (_ & Hnd & _ & _).
  assert (Hch : json_channels_from (_data (raw (self st)))
                  (export_names (self st) channels) 0 []
                = Ok ((λ name,
                        (name,
                         JList (JFloat <$> channel_samples (raw (self st)) name)))
                      <$> ch_names (raw (self st)))).
  { unfold export_names. rewrite Ht.
    rewrite <- json_fill_NoDup by done. apply json_channels_from_ok.
    intros k name Hk. by apply channel_samples_lookup. }
  destruct m.
  - destruct (get_info_ok (self st)) as (info & Hinfo); [by apply Hm|].
    exists [("metadata", info_json info)]. split_and!; [|done|by eauto].
    by apply (to_json_run ordered p channels true st _ _ _ info
                (get_data_unfiltered ordered _ _ Hok Ht)).
  - exists []. split_and!; [|done|done].
    by apply (to_json_run ordered p channels false st _ _ _
                {| filename := ""; n_channels := 0; channel_names := [];
                   sampling_rate := 0; duration_seconds := 0;
                   n_samples := 0; measurement_date := None |}
                (get_data_unfiltered ordered _ _ Hok Ht)).
Qed.

(** C10: an empty channel list is handled like no list at all, and that
    means every channel, not none.  [get_data] returns every stored
    channel and the exporters label them with the recording's own channel
    names.  Called with the empty list, the CSV export writes the header
    of all channel names and, for every position of the time axis, a row
    with a sample of every channel; the JSON export writes an entry with
    its samples for every channel; the archive holds the whole stored
    matrix under all channel names.  Each exporter behaves on the empty
    list exactly as it does without a filter. *)
Theorem empty_filter_is_no_filter ordered (conv : EDFConverter) :
  raw_ok (raw conv) = true →
  get_data ordered conv (Some []) = get_data ordered conv None
  ∧ get_data ordered conv (Some [])
    = Ok (_data (raw conv), times (raw conv))
  ∧ length (_data (raw conv)) = length (ch_names (raw conv))
  ∧ (0 < length (_data (raw conv)))%nat
  ∧ export_names conv (Some []) = ch_names (raw conv)
  ∧ (∀ c st, run_export ordered (with_channels c (Some [])) st
             = run_export ordered (with_channels c None) st)
  ∧ (∀ w p (t : bool), writable w p = true →
       ∃ rows,
         to_csv ordered p (Some []) t {| self := conv; world := w |}
         = (Ok (),
            wrote {| self := conv; world := w |} p
              (CsvFile (csv_header t (ch_names (raw conv)) :: rows))
              ("CSV file saved to: " +:+ p))
         ∧ length rows = n_times (raw conv)
         ∧ ∀ i, (i < n_times (raw conv))%nat →
             rows !! i
             = Some (time_cell t (inject_Z (Z.of_nat i) / sfreq (raw conv))%Q
                     ++ ((λ name,
                           CellFloat (nth i (channel_samples (raw conv) name) 0%Q))
                           <$> ch_names (raw conv))))
  ∧ (∀ w p (m : bool), writable w p = true →
       (m = true → (0 < n_times (raw conv))%nat) →
       ∃ metadata,
         to_json ordered p (Some []) m {| self := conv; world := w |}
         = (Ok (),
            wrote {| self := conv; world := w |} p
              (JsonFile
                 (JDict
                    (metadata
                     ++ [("data",
                          JDict [("times", JList (JFloat <$> times (raw conv)));
                                 ("channels",
                                  JDict ((λ name,
                                           (name,
                                            JList (JFloat
                                                     <$> channel_samples
                                                           (raw conv) name)))
                                         <$> ch_names (raw conv)))])])))
              ("JSON file saved to: " +:+ p)))
  ∧ (∀ w p, writable w (npz_path p) = true →
       to_numpy ordered p (Some []) {| self := conv; world := w |}
       = (Ok (),
          wrote {| self := conv; world := w |} (npz_path p)
            (NpzFile [("data", NpzMatrix (_data (raw conv)));
                      ("times", NpzVector (times (raw conv)));
                      ("channel_names", NpzStrings (ch_names (raw conv)));
                      ("sampling_rate", NpzScalar (sfreq (raw conv)))])
            ("NumPy file saved to: " +:+ p))).
Proof.
  intros Hok. pose proof (raw_ok_inv _ Hok) as (Hne & _ & Hlen & _).
  split_and!; try done.
  - unfold get_data. simpl. by rewrite raw_get_data_all.
  - rewrite Hlen. destruct (ch_names (raw conv)); [done|simpl; lia].
  - by intros [p ch t|p ch m|p ch] st.
  - intros w p t Hw.
    exact (to_csv_unfiltered ordered p (Some []) t
             {| self := conv; world := w |} eq_refl Hok Hw).
  - intros w p m Hw Hm.
    destruct (to_json_unfiltered ordered p (Some []) m
                {| self := conv; world := w |} eq_refl Hok Hw Hm)
      as (metadata & Hrun & _).
    by exists metadata.
  - intros w p Hw.
    exact (to_numpy_run ordered p (Some []) {| self := conv; world := w |}
             _ _ (get_data_unfiltered ordered conv (Some []) Hok eq_refl) Hw).
Qed.

Lemma empty_filter_is_no_filter_witness :
  raw_ok (raw conv_AB) = true
  ∧ get_data false conv_AB (Some []) = get_data false conv_AB None
  ∧ get_data false conv_AB (Some [])
    = Ok (_data (raw conv_AB), times (raw conv_AB))
  ∧ to_numpy false "out.npz" (Some []) st_AB
    = (Ok (),
       wrote st_AB "out.npz"
         (NpzFile [("data", NpzMatrix [[1; 2; 3; 4]%Q; [10; 20; 30; 40]%Q]);
                   ("times", NpzVector (times raw_AB));
                   ("channel_names", NpzStrings ["A"; "B"]);
                   ("sampling_rate", NpzScalar 4)])
         "NumPy file saved to: out.npz").
Proof.
  split; [reflexivity|].
  pose proof (empty_filter_is_no_filter false conv_AB eq_refl) as H.
  split; [exact (proj1 H)|]. split; [exact (proj1 (proj2 H))|].
  exact (proj2 (proj2 (proj2 (proj2 (proj2 (proj2 (proj2 (proj2 H)))))))
           world0 "out.npz" eq_refl).
Defined.

(** ** The name of the NumPy archive *)

Lemma length_string_app (a b : string) :
  String.length (a +:+ b) = (String.length a + String.length b)%nat.
Proof. induction a as [|c a IH]; simpl; [done|by rewrite IH]. Qed.

Lemma substring_all (s : string) : String.substring 0 (String.length s) s = s.
Proof. induction s as [|c s IH]; simpl; [done|by rewrite IH]. Qed.

Lemma substring_app_r (a b : string) :
  String.substring (String.length a) (String.length b) (a +:+ b) = b.
Proof. induction a as [|c a IH]; simpl; [apply substring_all|done]. Qed.

Lemma endswith_app (a b : string) : endswith (a +:+ b) b = true.
Proof.
  unfold endswith. rewrite length_string_app.
  replace (String.length a + String.length b - String.length b)%nat
    with (String.length a) by lia.
  rewrite substring_app_r, String.eqb_refl, andb_true_r.
  apply Nat.leb_le. lia.
Qed.

Lemma npz_path_endswith (p : string) : endswith (npz_path p) ".npz" = true.
Proof.
  unfold npz_path. destruct (endswith p ".npz") eqn:E; [done|].
  apply endswith_app.
Qed.

Lemma app_suffix_ne (p s : string) : s ≠ EmptyString → p ≠ p +:+ s.
Proof.
  intros Hs Heq. apply (f_equal String.length) in Heq.
  rewrite length_string_app in Heq. destruct s; [done|]. simpl in Heq. lia.
Qed.

(** X7: The archive always gets a name that ends in [.npz]: a path that has
    the suffix is used as it is, any other gets it appended.  In the
    second case nothing is written at the path the caller gave, although
    the line printed afterwards names that path. *)
Theorem to_numpy_appends_npz_suffix ordered p channels st st' :
  to_numpy ordered p channels st = (Ok (), st') →
  endswith (npz_path p) ".npz" = true
  ∧ npz_path (npz_path p) = npz_path p
  ∧ is_Some (files (world st') !! npz_path p)
  ∧ last (stdout (world st')) = Some ("NumPy file saved to: " +:+ p)
  ∧ (endswith p ".npz" = false →
       npz_path p = p +:+ ".npz"
       ∧ files (world st') !! p = files (world st) !! p).
Proof.
  intros Hrun.
  destruct (run_export_ok_shape ordered (Call_to_numpy p channels) st st st'
              eq_refl eq_refl Hrun) as (content & -> & _ & _).
  pose proof (npz_path_endswith p) as Hend. split_and!.
  - done.
  - unfold npz_path at 1. by rewrite Hend.
  - simpl. rewrite lookup_insert_eq. by eexists.
  - simpl. by rewrite last_snoc.
  - intros Hno. unfold npz_path. rewrite Hno. split; [done|].
    simpl. unfold npz_path. rewrite Hno.
    rewrite lookup_insert_ne; [done|].
    intros Heq. by apply (app_suffix_ne p ".npz").
Qed.

Lemma to_numpy_appends_npz_suffix_witness :
  to_numpy true "out" None st_AB = (Ok (), (to_numpy true "out" None st_AB).2)
  ∧ files (world (to_numpy true "out" None st_AB).2) !! "out" = None
  ∧ is_Some (files (world (to_numpy true "out" None st_AB).2) !! "out.npz").
Proof.
  split; [reflexivity|]. split; [reflexivity|].
  exact (proj1 (proj2 (proj2 (to_numpy_appends_npz_suffix true "out" None st_AB
                                (to_numpy true "out" None st_AB).2 eq_refl)))).
Defined.

(** ** The metadata and the data *)

(** X8: The dictionary of [get_info] describes the array [get_data] returns
    without a filter: [n_channels] is its number of rows and the length
    of [channel_names], [n_samples] is the length of every row and of the
    time axis, and [measurement_date] is absent exactly when the
    recording has no measurement date. *)
Theorem get_info_describes_the_data ordered conv :
  raw_ok (raw conv) = true →
  (0 < n_times (raw conv))%nat →
  ∃ info d t,
    get_info conv = Ok info
    ∧ get_data ordered conv None = Ok (d, t)
    ∧ n_channels info = length d
    ∧ length (channel_names info) = length d
    ∧ n_samples info = length t
    ∧ Forall (λ row, length row = n_samples info) d
    ∧ (measurement_date info = None ↔ meas_date (raw conv) = None).
Proof.
  intros Hok Hn. pose proof (raw_ok_inv _ Hok) as (_ & _ & Hlen & Hrows).
  assert (Hlast : is_Some (last (times (raw conv)))).
  { rewrite last_lookup. apply lookup_lt_is_Some. rewrite length_times. lia. }
  destruct Hlast as [tl Htl].
  eexists _, _, _. split.
  { unfold get_info. rewrite Htl. simpl. reflexivity. }
  split; [by apply get_data_all|]. simpl.
  rewrite length_times. split_and!; try done.
Qed.

Lemma get_info_describes_the_data_witness :
  raw_ok (raw conv_example) = true
  ∧ (0 < n_times (raw conv_example))%nat
  ∧ ∃ info, get_info conv_example = Ok info
            ∧ n_channels info = 2%nat ∧ n_samples info = 12%nat.
Proof.
  assert (Hn : (0 < n_times (raw conv_example))%nat).
  { unfold conv_example, raw_example. simpl. lia. }
  split; [reflexivity|]. split; [exact Hn|].
  destruct (get_info_describes_the_data true conv_example eq_refl Hn)
    as (info & d & t & Hinfo & Hget & Hc & _ & Hs & _).
  exists info. split; [exact Hinfo|].
  assert (Hd : d = _data raw_example ∧ t = times raw_example).
  { unfold get_data in Hget. simpl in Hget. injection Hget as <- <-. done. }
  destruct Hd as [-> ->]. split; [exact Hc|exact Hs].
Defined.

(** X9: A recording without samples has no last timestamp: [get_info] then
    raises [IndexError], and so does every JSON export that asks for the
    metadata, which writes and prints nothing.  With at least one sample
    [get_info] succeeds. *)
Theorem get_info_needs_a_sample conv :
  ((0 < n_times (raw conv))%nat → ∃ info, get_info conv = Ok info)
  ∧ (n_times (raw conv) = 0%nat →
     (∃ e, get_info conv = Raise e ∧ exc_type e = IndexError)
     ∧ ∀ ordered p channels st, self st = conv →
         ∃ e, to_json ordered p channels true st = (Raise e, st)).
Proof.
  split.
  - intros Hn.
    by apply get_info_ok.
  - intros Hn.
    pose proof (get_info_empty conv Hn) as Hinfo.
    split; [by eexists|].
    intros ordered p channels st <-.
    unfold to_json, mbind, M_bind, get_self, lift.
    destruct (get_data ordered (self st) channels) as [[d ts]|e];
      [|by eexists].
    rewrite Hinfo. by eexists.
Qed.

Lemma get_info_needs_a_sample_witness :
  n_times (raw (self st_empty)) = 0%nat
  ∧ ∃ e, get_info (self st_empty) = Raise e ∧ exc_type e = IndexError.
Proof.
  split; [reflexivity|].
  exact (proj1 (proj2 (get_info_needs_a_sample (self st_empty)) eq_refl)).
Defined.

(** ** Paths *)

Lemma split_slash_nonempty (s : string) : split_slash s ≠ [].
Proof.
  induction s as [|c s IH]; simpl; [done|].
  destruct (Ascii.eqb c "/"); [done|]. by destruct (split_slash s).
Qed.

Lemma split_slash_no_slash (s part : string) :
  part ∈ split_slash s → contains_char "/" part = false.
Proof.
  revert part. induction s as [|c s IH]; intros part; simpl.
  - by intros ->%list_elem_of_singleton.
  - destruct (Ascii.eqb c "/") eqn:E.
    + intros [->|Hin]%elem_of_cons; [done|by apply IH].
    + destruct (split_slash s) as [|first others] eqn:Es.
      * intros ->%list_elem_of_singleton. simpl. by rewrite E.
      * intros [->|Hin]%elem_of_cons.
        -- simpl. rewrite E. apply IH. apply list_elem_of_here.
        -- apply IH. by apply list_elem_of_further.
Qed.

Lemma contains_char_substring (c : ascii) (s : string) (n m : nat) :
  contains_char c s = false →
  contains_char c (String.substring n m s) = false.
Proof.
  revert n m. induction s as [|c' s IH]; intros n m H.
  - by destruct n, m.
  - simpl in H. apply orb_false_iff in H as [Hc Hs].
    destruct n as [|n]; simpl.
    + destruct m as [|m]; [done|]. simpl. rewrite Hc. by apply IH.
    + by apply IH.
Qed.

Lemma contains_char_app (c : ascii) (a b : string) :
  contains_char c (a +:+ b) = contains_char c a || contains_char c b.
Proof.
  induction a as [|c' a IH]; simpl; [done|]. by rewrite IH, orb_assoc.
Qed.

Lemma posix_name_no_slash (p : string) : contains_char "/" (posix_name p) = false.
Proof.
  unfold posix_name. destruct (last (posix_parts p)) as [name|] eqn:E; [|done].
  simpl. apply last_Some_elem_of in E. unfold posix_parts in E.
  apply list_elem_of_filter in E as [_ E]. by eapply split_slash_no_slash.
Qed.

Lemma posix_stem_no_slash (p : string) : contains_char "/" (posix_stem p) = false.
Proof.
  unfold posix_stem. pose proof (posix_name_no_slash p) as H.
  destruct (rfind_dot (posix_name p)) as [i|]; [|done].
  destruct (_ && _); [|done]. by apply contains_char_substring.
Qed.

Lemma split_slash_app (a b : string) :
  split_slash (a +:+ String "/"%char b) = split_slash a ++ split_slash b.
Proof.
  induction a as [|c a IH]; [done|].
  change (String c a +:+ String "/"%char b)
    with (String c (a +:+ String "/"%char b)).
  cbn [split_slash]. rewrite IH.
  destruct (Ascii.eqb c "/"); [done|].
  pose proof (split_slash_nonempty a) as Hne.
  by destruct (split_slash a).
Qed.

Lemma split_slash_single (s : string) :
  contains_char "/" s = false → split_slash s = [s].
Proof.
  induction s as [|c s IH]; [done|]. simpl.
  intros [Hc Hs]%orb_false_iff. rewrite Hc, IH by done. done.
Qed.

Lemma rfind_dot_none (s : string) :
  contains_char "." s = false → rfind_dot s = None.
Proof.
  induction s as [|c s IH]; [done|]. simpl.
  intros [Hc Hs]%orb_false_iff. by rewrite IH, Hc.
Qed.

Lemma rfind_dot_app (base ext : string) :
  contains_char "." ext = false →
  rfind_dot (base +:+ "." +:+ ext) = Some (String.length base).
Proof.
  intros Hext. induction base as [|c base IH]; simpl.
  - by rewrite rfind_dot_none.
  - by rewrite IH.
Qed.

Lemma substring_app_l (a b : string) :
  String.substring 0 (String.length a) (a +:+ b) = a.
Proof.
  induction a as [|c a IH]; simpl; [by destruct b|by rewrite IH].
Qed.

Lemma posix_stem_of_name (base ext : string) :
  base ≠ EmptyString → ext ≠ EmptyString →
  contains_char "." ext = false →
  let name := base +:+ "." +:+ ext in
  (name ≠ EmptyString ∧ name ≠ ".")
  ∧ match rfind_dot name with
    | Some i =>
        if (0 <? i)%nat && (i <? String.length name - 1)%nat
        then String.substring 0 i name else name
    | None => name
    end = base.
Proof.
  intros Hb He Hdot name. split.
  - unfold name. destruct base as [|c base]; [done|]. split; [done|].
    simpl. intros [= _ H]. destruct base; [|done]. simpl in H. done.
  - unfold name. rewrite rfind_dot_app by done.
    rewrite !length_string_app.
    assert (Hlb : (0 < String.length base)%nat)
      by (destruct base; [done|simpl; lia]).
    assert (Hle : (0 < String.length ext)%nat)
      by (destruct ext; [done|simpl; lia]).
    replace (0 <? String.length base)%nat with true
      by (symmetry; by apply Nat.ltb_lt).
    replace (String.length base <? _)%nat with true.
    2:{ symmetry. apply Nat.ltb_lt. simpl. lia. }
    simpl. apply substring_app_l.
Qed.

(** X10: [Path(p).stem] on an ordinary file path drops the directory and the
    last extension: for a file name [base.ext], with a non-empty [base]
    free of slashes and a non-empty [ext] free of dots and slashes, alone
    or behind any directory prefix, the stem is [base].  The stem of any
    path whatever contains no slash. *)
Theorem posix_stem_of_ordinary_path (dir base ext : string) :
  base ≠ EmptyString → ext ≠ EmptyString →
  contains_char "/" base = false →
  contains_char "/" ext = false →
  contains_char "." ext = false →
  posix_stem (base +:+ "." +:+ ext) = base
  ∧ posix_stem (dir +:+ "/" +:+ base +:+ "." +:+ ext) = base
  ∧ ∀ p, contains_char "/" (posix_stem p) = false.
Proof.
  intros Hb He Hsb Hse Hdot.
  destruct (posix_stem_of_name base ext Hb He Hdot) as [[Hn1 Hn2] Hstem].
  assert (Hns : contains_char "/" (base +:+ "." +:+ ext) = false).
  { rewrite !contains_char_app, Hsb, Hse. done. }
  assert (Hname : ∀ pre, last (filter (λ part, part ≠ EmptyString ∧ part ≠ ".")
                    (pre ++ [base +:+ "." +:+ ext]))
                  = Some (base +:+ "." +:+ ext)).
  { intros pre. rewrite filter_app, filter_cons_True by done.
    rewrite filter_nil. apply last_snoc. }
  split_and!.
  - unfold posix_stem, posix_name, posix_parts.
    rewrite split_slash_single by done.
    pose proof (Hname []) as H0. rewrite app_nil_l in H0. rewrite H0.
    exact Hstem.
  - unfold posix_stem, posix_name, posix_parts.
    change (dir +:+ "/" +:+ base +:+ "." +:+ ext)
      with (dir +:+ String "/"%char (base +:+ "." +:+ ext)).
    rewrite split_slash_app, (split_slash_single (base +:+ "." +:+ ext)) by done.
    rewrite Hname. exact Hstem.
  - apply posix_stem_no_slash.
Qed.

Lemma posix_stem_of_ordinary_path_witness :
  posix_stem "data/night 1/rec.v2.edf" = "rec.v2".
Proof.
  assert (H1 : "rec.v2" ≠ EmptyString) by discriminate.
  assert (H2 : "edf" ≠ EmptyString) by discriminate.
  exact (proj1 (proj2 (posix_stem_of_ordinary_path "data/night 1" "rec.v2" "edf"
                         H1 H2 eq_refl eq_refl eq_refl))).
Defined.

(** ** The command line *)

Lemma ascii_lower_idem (c : ascii) : ascii_lower (ascii_lower c) = ascii_lower c.
Proof. destruct c as [[] [] [] [] [] [] [] []]; reflexivity. Qed.

Lemma lower_idem (s : string) : lower (lower s) = lower s.
Proof.
  induction s as [|c s IH]; [done|]. simpl. by rewrite ascii_lower_idem, IH.
Qed.

Section MainProperties.

Variable ordered_default : bool.
Variable path_exists : string → bool.
Variable read_raw_edf : string → result Raw.
Variable str_float : Q → string.

#[local] Abbreviation main' :=
  (main ordered_default path_exists read_raw_edf str_float).
#[local] Abbreviation init' := (__init__ path_exists read_raw_edf).

Lemma main_load_failed prog input rest w e :
  init' input = Raise e →
  main' (prog :: input :: rest) w
  = (Exited 1, say ["Error: " +:+ exc_msg e] w).
Proof. intros H. unfold main. by rewrite H. Qed.

Lemma run_method_cases converter m w :
  (∃ st', m {| self := converter; world := w |} = (Ok (), st')
          ∧ run_method converter m w = (Returned, world st'))
  ∨ (∃ e st', m {| self := converter; world := w |} = (Raise e, st')
              ∧ run_method converter m w
                = (Exited 1, say ["Error: " +:+ exc_msg e] (world st'))).
Proof.
  unfold run_method.
  destruct (m {| self := converter; world := w |}) as [[[]|e] st'].
  - left. by exists st'.
  - right. by exists e, st'.
Qed.

(** X11: [main] ends in one of two ways: it returns, or it exits with status 1.
    It returns only if the input file was loaded and the requested
    format, compared in lower case, is one of [info], [csv], [json],
    [numpy] and [npz].  With fewer than two arguments it prints the three
    usage lines and exits with status 1 without looking at any file. *)
Theorem main_exit_status argv w o w' :
  main' argv w = (o, w') →
  (o = Returned ∨ o = Exited 1)
  ∧ ((length argv < 2)%nat → o = Exited 1 ∧ w' = say usage w)
  ∧ (o = Returned →
     ∃ prog input rest converter,
       argv = prog :: input :: rest
       ∧ init' input = Ok converter
       ∧ requested_format rest ∈ ["info"; "csv"; "json"; "numpy"; "npz"]).
Proof.
  destruct argv as [|prog [|input rest]].
  - intros [= <- <-]. split_and!; [by right|done|done].
  - intros [= <- <-]. split_and!; [by right|done|done].
  - unfold main. fold (requested_format rest).
    destruct (init' input) as [converter|e] eqn:Hinit.
    2:{ intros [= <- <-]. split_and!; [by right|simpl; lia|done]. }
    destruct (String.eqb (requested_format rest) "info") eqn:E1.
    { apply String.eqb_eq in E1.
      destruct (get_info converter) as [info|e]; intros [= <- <-].
      - split_and!; [by left|simpl; lia|].
        intros _. exists prog, input, rest, converter.
        split_and!; [done..|]. rewrite E1. compute_done.
      - split_and!; [by right|simpl; lia|done]. }
    destruct (String.eqb (requested_format rest) "csv") eqn:E2.
    { apply String.eqb_eq in E2. intros Hrun.
      destruct (run_method_cases converter
                  (to_csv ordered_default (posix_stem input +:+ ".csv") None true) w)
        as [(st' & _ & H)|(e & st' & _ & H)];
        rewrite H in Hrun; injection Hrun as <- <-.
      - split_and!; [by left|simpl; lia|].
        intros _. exists prog, input, rest, converter.
        split_and!; [done..|]. rewrite E2. compute_done.
      - split_and!; [by right|simpl; lia|done]. }
    destruct (String.eqb (requested_format rest) "json") eqn:E3.
    { apply String.eqb_eq in E3. intros Hrun.
      destruct (run_method_cases converter
                  (to_json ordered_default (posix_stem input +:+ ".json") None true) w)
        as [(st' & _ & H)|(e & st' & _ & H)];
        rewrite H in Hrun; injection Hrun as <- <-.
      - split_and!; [by left|simpl; lia|].
        intros _. exists prog, input, rest, converter.
        split_and!; [done..|]. rewrite E3. compute_done.
      - split_and!; [by right|simpl; lia|done]. }
    destruct (String.eqb (requested_format rest) "numpy"
              || String.eqb (requested_format rest) "npz") eqn:E4.
    { intros Hrun.
      destruct (run_method_cases converter
                  (to_numpy ordered_default (posix_stem input +:+ ".npz") None) w)
        as [(st' & _ & H)|(e & st' & _ & H)];
        rewrite H in Hrun; injection Hrun as <- <-.
      - split_and!; [by left|simpl; lia|].
        intros _. exists prog, input, rest, converter.
        split_and!; [done..|].
        apply orb_true_iff in E4 as [E4|E4]; apply String.eqb_eq in E4;
          rewrite E4; compute_done.
      - split_and!; [by right|simpl; lia|done]. }
    intros [= <- <-]. split_and!; [by right|simpl; lia|done].
Qed.

(** X12: A file that cannot be loaded is reported before anything else: [main]
    prints the single line [Error: ...] and exits with status 1 whatever
    format was asked for, a format it does not know included.  For a
    missing file the line names the path; for a file the decoder rejects
    it carries the decoder's message. *)
Theorem main_reports_load_failure_first prog input rest w e :
  init' input = Raise e →
  main' (prog :: input :: rest) w
  = (Exited 1, say ["Error: " +:+ exc_msg e] w)
  ∧ (path_exists input = false →
     exc_msg e = "EDF file not found: " +:+ input)
  ∧ (path_exists input = true →
     ∃ e0, read_raw_edf input = Raise e0
           ∧ exc_msg e = "Failed to read EDF file: " +:+ exc_msg e0).
Proof.
  intros Hinit. split; [by apply main_load_failed|].
  unfold __init__ in Hinit. destruct (path_exists input); simpl in Hinit.
  - split; [done|]. intros _.
    destruct (read_raw_edf input) as [r|e0]; [done|].
    injection Hinit as <-. by exists e0.
  - injection Hinit as <-. split; [done|]. done.
Qed.

(** X13: The format is compared without regard to case, the program name and
    any argument after the format are ignored, and a missing format
    means [info]. *)
Theorem main_ignores_case_and_extra_arguments prog prog' input fmt extra w :
  main' (prog :: input :: fmt :: extra) w = main' [prog'; input; lower fmt] w
  ∧ main' [prog; input] w = main' [prog'; input; "INFO"] w.
Proof. split; unfold main; [by rewrite lower_idem|done]. Qed.

Lemma say_files lines w : files (say lines w) = files w.
Proof. done. Qed.







(** X16: In [info] mode, which is also what a command line without a format
    means, [main] writes no file.  For a recording with at least one
    sample it prints a heading, a rule of 50 dashes and then seven lines
    [key: value], in the order [filename], [n_channels], [channel_names],
    [sampling_rate], [duration_seconds], [n_samples],
    [measurement_date], and returns; for a recording without samples it
    prints the heading, the rule and an error line and exits with
    status 1. *)
Theorem main_info_prints_the_metadata prog input rest w converter :
  init' input = Ok converter →
  requested_format rest = "info" →
  let heading := [String "010"%char "EDF File Information:";
                  repeat_char "-"%char 50] in
  files (main' (prog :: input :: rest) w).2 = files w
  ∧ ((0 < n_times (raw converter))%nat →
     ∃ info,
       get_info converter = Ok info
       ∧ (main' (prog :: input :: rest) w).1 = Returned
       ∧ stdout (main' (prog :: input :: rest) w).2
         = stdout w ++ heading ++ info_lines str_float info
       ∧ (info_items str_float info).*1
         = ["filename"; "n_channels"; "channel_names"; "sampling_rate";
            "duration_seconds"; "n_samples"; "measurement_date"]
       ∧ length (info_lines str_float info) = 7%nat)
  ∧ (n_times (raw converter) = 0%nat →
     ∃ e,
       (main' (prog :: input :: rest) w).1 = Exited 1
       ∧ stdout (main' (prog :: input :: rest) w).2
         = stdout w ++ heading ++ ["Error: " +:+ exc_msg e]).
Proof.
  intros Hinit Hfmt heading. unfold main. fold (requested_format rest).
  rewrite Hinit, Hfmt. simpl. split_and!.
  - by destruct (get_info converter).
  - intros Hn.
    destruct (get_info_ok converter Hn) as (info & Hinfo).
    exists info. rewrite Hinfo. simpl.
    split_and!; [done|done|rewrite <- app_assoc; reflexivity|done|done].
  - intros Hn.
    exists (Exn IndexError "index -1 is out of bounds for axis 0 with size 0").
    rewrite (get_info_empty converter Hn). simpl.
    split; [done|rewrite <- app_assoc; reflexivity].
Qed.

End MainProperties.


Lemma main_exit_status_witness :
  main true (λ _, true) read_raw_edf_sample str_float_sample
    ["edf_converter.py"; "data/rec.edf"; "CSV"] world0
  = (Returned,
     (main true (λ _, true) read_raw_edf_sample str_float_sample
        ["edf_converter.py"; "data/rec.edf"; "CSV"] world0).2)
  ∧ (Returned = Returned ∨ Returned = Exited 1).
Proof.
  split; [reflexivity|].
  exact (proj1 (main_exit_status true (λ _, true) read_raw_edf_sample
                  str_float_sample
                  ["edf_converter.py"; "data/rec.edf"; "CSV"] world0 Returned
                  _ eq_refl)).
Defined.

Lemma main_reports_load_failure_first_witness :
  __init__ (λ _, true) read_raw_edf_sample "notes.txt"
  = Raise (Exn ValueError
             "Failed to read EDF file: Only EDF files are supported, got txt.")
  ∧ main false (λ _, true) read_raw_edf_sample str_float_sample
      ["edf_converter.py"; "notes.txt"; "xml"] world0
    = (Exited 1,
       say ["Error: Failed to read EDF file: Only EDF files are supported, got txt."]
         world0).
Proof.
  split; [reflexivity|].
  exact (proj1 (main_reports_load_failure_first false (λ _, true)
                  read_raw_edf_sample str_float_sample "edf_converter.py"
                  "notes.txt" ["xml"] world0 _ eq_refl)).
Defined.



Lemma main_info_prints_the_metadata_witness :
  __init__ (λ _, true) read_raw_edf_sample "data/rec.edf"
  = Ok {| filepath := "data/rec.edf"; raw := raw_AB |}
  ∧ requested_format [] = "info"
  ∧ files (main true (λ _, true) read_raw_edf_sample str_float_sample
             ["edf_converter.py"; "data/rec.edf"] world0).2 = files world0.
Proof.
  split; [reflexivity|]. split; [reflexivity|].
  exact (proj1 (main_info_prints_the_metadata true (λ _, true)
                  read_raw_edf_sample str_float_sample "edf_converter.py"
                  "data/rec.edf" [] world0
                  {| filepath := "data/rec.edf"; raw := raw_AB |}
                  eq_refl eq_refl)).
Defined.

(** ** The constructor *)

(** X17: Constructing a converter succeeds exactly when the path exists and
    the decoder accepts the file, and the converter then remembers the
    path and holds the decoded recording.  When the path does not exist
    the decoder is not consulted: the outcome is the [FileNotFoundError]
    naming the path, whatever the decoder would have done. *)
Theorem init_succeeds_iff (path_exists : string → bool)
    (read_raw_edf : string → result Raw) (path : string) :
  ((∃ converter, __init__ path_exists read_raw_edf path = Ok converter)
   ↔ path_exists path = true ∧ ∃ r, read_raw_edf path = Ok r)
  ∧ (∀ r, path_exists path = true → read_raw_edf path = Ok r →
          __init__ path_exists read_raw_edf path
          = Ok {| filepath := path; raw := r |})
  ∧ (path_exists path = false →
     ∀ other_decoder,
       __init__ path_exists other_decoder path
       = Raise (Exn FileNotFoundError ("EDF file not found: " +:+ path))).
Proof.
  unfold __init__. split_and!.
  - destruct (path_exists path); simpl.
    + destruct (read_raw_edf path) as [r|e].
      * split; [intros _; split; [done|by exists r]|by eexists].
      * split; [by intros [c Hc]|by intros [_ [r Hr]]].
    + split; [by intros [c Hc]|by intros [H _]].
  - intros r -> ->. done.
  - intros -> other. done.
Qed.

(** ** The channel filter under the set-like picker *)

Lemma set_like_rows (r : Raw) (include names : list string) (j : nat) :
  (∀ i name, names !! i = Some name →
     _data r !! (j + i)%nat = Some (channel_samples r name)) →
  Forall2 (λ k row, _data r !! k = Some row)
    (fst <$> filter (λ p : nat * string, p.2 ∈ include)
               (imap (λ i n, ((j + i)%nat, n)) names))
    (channel_samples r <$> filter (λ name, name ∈ include) names).
Proof.
  revert j. induction names as [|n names IH]; intros j H; [constructor|].
  rewrite imap_cons.
  assert (Hshift : imap ((λ i n, ((j + i)%nat, n)) ∘ S) names
                   = imap (λ i n, ((S j + i)%nat, n)) names).
  { apply imap_ext. intros i x _. simpl. f_equal. lia. }
  rewrite Hshift.
  assert (IH' := IH (S j)).
  destruct (decide (n ∈ include)) as [Hin|Hnot].
  - rewrite filter_cons_True by done.
    rewrite (filter_cons_True (λ name, name ∈ include)) by done.
    rewrite !fmap_cons. constructor.
    + exact (H 0%nat n eq_refl).
    + apply IH'. intros i name Hi.
      rewrite <- (H (S i) name Hi). f_equal. lia.
  - rewrite filter_cons_False by done.
    rewrite (filter_cons_False (λ name, name ∈ include)) by done.
    apply IH'. intros i name Hi.
    rewrite <- (H (S i) name Hi). f_equal. lia.
Qed.

(** X18: With the picker of mne up to 1.6, which takes the list of labels as a
    set, a filter of which at least one label is in the recording makes
    [get_data] return the rows of those channels of the recording that
    occur in the filter, in the recording's order and each once: labels
    the recording lacks are skipped, and the order and the repetitions of
    the filter are not seen, so two filters with the same labels give the
    same rows.  The exporters meanwhile label the rows with the list as
    the caller wrote it. *)
Theorem get_data_set_like_keeps_recording_order conv (channels : list string) :
  raw_ok (raw conv) = true →
  (∃ name, name ∈ channels ∧ name ∈ ch_names (raw conv)) →
  get_data false conv (Some channels)
  = Ok (channel_samples (raw conv)
          <$> filter (λ name, name ∈ channels) (ch_names (raw conv)),
        times (raw conv))
  ∧ (∀ channels', (∀ name, name ∈ channels ↔ name ∈ channels') →
       get_data false conv (Some channels')
       = get_data false conv (Some channels))
  ∧ export_names conv (Some channels) = channels.
Proof.
  intros Hok (valid & Hvalid & Hrec).
  pose proof (raw_ok_inv _ Hok) as (_ & Hnd & Hlen & _).
  assert (Hget : ∀ l, (∃ name, name ∈ l ∧ name ∈ ch_names (raw conv)) →
            get_data false conv (Some l)
            = Ok (channel_samples (raw conv)
                    <$> filter (λ name, name ∈ l) (ch_names (raw conv)),
                  times (raw conv))).
  { intros l (v & Hv & Hvr).
    destruct l as [|c cs]; [by apply elem_of_nil in Hv|].
    assert (Hrows := set_like_rows (raw conv) (c :: cs) (ch_names (raw conv)) 0
                       (λ i name Hi, channel_samples_lookup _ _ _ Hok Hi)).
    simpl in Hrows.
    assert (Hin : v ∈ filter (λ name, name ∈ c :: cs) (ch_names (raw conv))).
    { by apply list_elem_of_filter. }
    unfold get_data, pick_channels. rewrite bool_decide_eq_true_2 by done.
    cbn [truthy default from_option id negb mbind result_bind].
    unfold raw_get_data. cbn [default from_option id].
    destruct (fst <$> filter (λ p : nat * string, p.2 ∈ c :: cs)
                        (imap (λ k name, (k, name)) (ch_names (raw conv))))
      as [|k ks] eqn:E.
    { apply Forall2_nil_inv_l in Hrows.
      apply fmap_nil_inv in Hrows. rewrite Hrows in Hin.
      by apply elem_of_nil in Hin. }
    apply mapM_Some in Hrows. rewrite Hrows. done. }
  split_and!.
  - apply Hget. by exists valid.
  - intros channels' Hsame. rewrite !Hget; [|by exists valid|].
    + do 3 f_equal. apply list_filter_iff. intros name. symmetry. apply Hsame.
    + exists valid. split; [by apply Hsame|done].
  - unfold export_names. destruct channels; [by apply elem_of_nil in Hvalid|done].
Qed.

Lemma get_data_set_like_keeps_recording_order_witness :
  raw_ok (raw conv_AB) = true
  ∧ (∃ name, name ∈ ["B"; "ZZZ"; "A"; "B"] ∧ name ∈ ch_names (raw conv_AB))
  ∧ get_data false conv_AB (Some ["B"; "ZZZ"; "A"; "B"])
    = Ok ([[1; 2; 3; 4]%Q; [10; 20; 30; 40]%Q], times raw_AB).
Proof.
  assert (H : ∃ name, name ∈ ["B"; "ZZZ"; "A"; "B"]
                      ∧ name ∈ ch_names (raw conv_AB)).
  { exists "A". split; compute_done. }
  split; [reflexivity|]. split; [exact H|].
  exact (proj1 (get_data_set_like_keeps_recording_order conv_AB
                  ["B"; "ZZZ"; "A"; "B"] eq_refl H)).
Defined.
